(** * The REST requester of gitbeaker: [packages/rest/src/Requester.ts]

    A shallow embedding of the request pipeline (option resolution, URL
    construction, the bounded retry loop, body decoding and error
    normalisation) together with the properties stated about it.

    JavaScript objects provided by the host (the [Response] returned by
    [fetch], [Headers], [URL], [JSON], timers) are modelled by the
    observations the module makes of them.  Asynchronous functions are
    modelled by their settled outcome; the network and the timer are effects
    recorded in a chronological trace. *)

From Stdlib Require Import ZArith QArith Qpower String Ascii List.
From stdpp Require Import gmap strings list fin_maps.

Set Warnings "-register-all".
Local Open Scope Z_scope.

(** ** String primitives used by the module *)

Module JSString.

(** [s.startsWith(p)] *)
Definition startsWith (s p : string) : bool := String.prefix p s.

(** [s.endsWith(p)]: [p] is [s] itself or a suffix of the tail of [s]. *)
Fixpoint endsWith (s p : string) : bool :=
  String.eqb s p ||
  match s with
  | EmptyString => false
  | String _ s' => endsWith s' p
  end.

(** [s.includes(p)]: [p] starts at some position of [s]. *)
Fixpoint includes (s p : string) : bool :=
  String.prefix p s ||
  match s with
  | EmptyString => false
  | String _ s' => includes s' p
  end.

(** [s.split(sep)[0]] for a one-character separator: the characters before
    the first occurrence of [sep] (all of [s] when there is none). *)
Fixpoint split_first (sep : ascii) (s : string) : string :=
  match s with
  | EmptyString => EmptyString
  | String c s' =>
      if Ascii.eqb c sep then EmptyString else String c (split_first sep s')
  end.

(** The white space that [trim] strips.  The module trims header values
    only, and [fetch] decodes the bytes of a header value one to one into
    code units, so a character here is a code unit up to U+00FF: the white
    space and line terminators of ECMAScript in that range are TAB, LF, VT,
    FF, CR, SP and the no-break space U+00A0. *)
Definition is_space (c : ascii) : bool :=
  Ascii.is_space c || Ascii.eqb c "160"%char.

Fixpoint trimStart (s : string) : string :=
  match s with
  | EmptyString => EmptyString
  | String c s' => if is_space c then trimStart s' else s
  end.

Fixpoint trimEnd (s : string) : string :=
  match s with
  | EmptyString => EmptyString
  | String c s' =>
      match trimEnd s' with
      | EmptyString => if is_space c then EmptyString else String c EmptyString
      | t => String c t
      end
  end.

(** [s.trim()] *)
Definition trim (s : string) : string := trimEnd (trimStart s).

(** A string is truthy unless it is empty. *)
Definition truthy (s : string) : bool :=
  match s with EmptyString => false | String _ _ => true end.

(** [s || d] for a string [s] that may be undefined or null. *)
Definition or_else (s : option string) (d : string) : string :=
  match s with
  | Some s => if truthy s then s else d
  | None => d
  end.

End JSString.

(** ** JavaScript values *)

(** [Blob], the body stream of a response, and the [https.Agent] of Node. *)
Record Blob := { blob_bytes : string; blob_type : string }.
Record ReadableStream := { stream_bytes : string }.
Record Agent := { agent_rejectUnauthorized : bool }.

(** The values the module handles.  Numbers are kept as exact rationals (the
    code only observes whether a number is zero); objects keep their
    properties in insertion order. *)
Inductive JSValue :=
| JUndefined
| JNull
| JBool (b : bool)
| JNumber (x : Q)
| JString (s : string)
| JArray (items : list JSValue)
| JObject (props : list (string * JSValue))
| JBlob (b : Blob)
| JStream (s : ReadableStream)
| JAgent (a : Agent).

(** [ToBoolean]: what [v || w] tests. *)
Definition truthy (v : JSValue) : bool :=
  match v with
  | JUndefined | JNull => false
  | JBool b => b
  | JNumber x => negb (Qeq_bool x 0)
  | JString s => JSString.truthy s
  | JArray _ | JObject _ | JBlob _ | JStream _ | JAgent _ => true
  end.

(** [v || w] *)
Definition js_or (v w : JSValue) : JSValue := if truthy v then v else w.

(** The first property named [k] of a property list. *)
Fixpoint own_property (k : string) (props : list (string * JSValue)) : option JSValue :=
  match props with
  | [] => None
  | (k', v) :: rest => if String.eqb k' k then Some v else own_property k rest
  end.

(** ** Completions: a value, or something thrown (a rejected promise) *)

Inductive Completion (E A : Type) :=
| Normal (a : A)
| Throw (e : E).
Arguments Normal {E A} a.
Arguments Throw {E A} e.

(** An exception raised by the host (by [fetch], [response.json()],
    [JSON.parse], [new URL], ...): the module reads its [name] only. *)
Record Exception := { name : string; message : string }.

Definition TypeError (msg : string) : Exception :=
  {| name := "TypeError"; message := msg |}.

(** ** The [Response] of [fetch], as far as the module observes it *)

Module Headers.
Record t := {
  get : string -> option string;        (* headers.get(name), null as None *)
  entries : list (string * string)      (* headers.entries() *)
}.
End Headers.

Module Response.
Record t := {
  ok : bool;
  status : Z;
  statusText : string;
  headers : Headers.t;
  body : option ReadableStream;          (* response.body, null as None *)
  json : Completion Exception JSValue;   (* how response.json() settles *)
  text : Completion Exception string;    (* how response.text() settles *)
  blob : Completion Exception Blob       (* how response.blob() settles *)
}.

(** The [ok] getter of a response made by [fetch]: the status is in the
    range 200 to 299. *)
Definition consistent (r : t) : Prop :=
  ok r = (200 <=? status r) && (status r <=? 299).
End Response.

(** ** Errors thrown by the module *)

(** The [cause] given to [new Error(message, { cause })]. *)
Record Cause := {
  description : option string;   (* undefined as None *)
  response : Response.t
}.

Inductive JSError :=
| Native (e : Exception)                             (* a host exception, passing through *)
| NewError (msg : string) (cause : option Cause).    (* new Error(msg[, { cause }]) *)

(** ** [URL] objects *)

Module URL.

(** The components of a parsed URL: [protocol] ends with its colon,
    [authority] is what follows the two slashes when there are any, [query]
    and [fragment] are kept without their [?] and [#]. *)
Record t := {
  protocol : string;
  authority : option string;
  pathname : string;
  query : option string;
  fragment : option string
}.

Definition is_special (u : t) : bool :=
  existsb (String.eqb (protocol u)) ["http:"; "https:"; "ws:"; "wss:"; "ftp:"; "file:"]%string.

Definition hex_digit (n : N) : ascii :=
  if (n <? 10)%N then ascii_of_N (48 + n) else ascii_of_N (55 + n).

(** The query percent-encode set: C0 controls, bytes above [~], space,
    the double quote, [#], [<], [>], and ['] in a special URL. *)
Definition in_query_encode_set (special : bool) (c : ascii) : bool :=
  let n := N_of_ascii c in
  (n <=? 32)%N || (126 <? n)%N || (n =? 34)%N || (n =? 35)%N ||
  (n =? 60)%N || (n =? 62)%N || (special && (n =? 39)%N).

Definition is_tab_or_newline (c : ascii) : bool :=
  let n := N_of_ascii c in (n =? 9)%N || (n =? 10)%N || (n =? 13)%N.

Fixpoint encode_query (special : bool) (s : string) : string :=
  match s with
  | EmptyString => EmptyString
  | String c s' =>
      if is_tab_or_newline c then encode_query special s'
      else if in_query_encode_set special c then
        let n := N_of_ascii c in
        String "%" (String (hex_digit (n / 16)) (String (hex_digit (n mod 16))
          (encode_query special s')))
      else String c (encode_query special s')
  end.

(** The [search] setter: the empty string removes the query; otherwise one
    leading [?] is dropped and the rest becomes the query. *)
Definition set_search (u : t) (value : string) : t :=
  match value with
  | EmptyString =>
      {| protocol := protocol u; authority := authority u;
         pathname := pathname u; query := None; fragment := fragment u |}
  | String c rest =>
      let input := if Ascii.eqb c "?" then rest else value in
      {| protocol := protocol u; authority := authority u;
         pathname := pathname u;
         query := Some (encode_query (is_special u) input);
         fragment := fragment u |}
  end.

(** The [search] getter: empty when there is no query or an empty one. *)
Definition search (u : t) : string :=
  match query u with
  | None | Some EmptyString => EmptyString
  | Some q => String "?" q
  end.

(** The serialisation [url.href]. *)
Definition href (u : t) : string :=
  (protocol u
   ++ match authority u with Some a => "//" ++ a | None => EmptyString end
   ++ pathname u
   ++ match query u with Some q => String "?" q | None => EmptyString end
   ++ match fragment u with Some f => String "#" f | None => EmptyString end)%string.

(** *** A parser for ordinary hierarchical URLs

    The part of [new URL(input, base)] that splits a URL with a scheme into
    its components and resolves a relative reference against a base:
    dot segments are removed, the scheme and the authority are put in
    lower case, an empty path after an authority becomes [/].  User
    information, default ports, percent-encoding of the path, backslashes
    and the other repairs of the URL standard are not modelled. *)

(** [s] cut at the first [sep]: what is before it, and what is after it
    when there is one. *)
Fixpoint cut (sep : ascii) (s : string) : string * option string :=
  match s with
  | EmptyString => (EmptyString, None)
  | String c s' =>
      if Ascii.eqb c sep then (EmptyString, Some s')
      else let '(before, after) := cut sep s' in (String c before, after)
  end.

Fixpoint split_on (sep : ascii) (s : string) : list string :=
  match s with
  | EmptyString => [EmptyString]
  | String c s' =>
      if Ascii.eqb c sep then EmptyString :: split_on sep s'
      else match split_on sep s' with
           | seg :: segs => String c seg :: segs
           | [] => [String c EmptyString]
           end
  end.

Fixpoint join (sep : ascii) (segs : list string) : string :=
  match segs with
  | [] => EmptyString
  | [seg] => seg
  | seg :: rest => (seg ++ String sep (join sep rest))%string
  end.

Definition is_alpha (c : ascii) : bool :=
  let n := N_of_ascii c in
  ((65 <=? n) && (n <=? 90) || (97 <=? n) && (n <=? 122))%N.

Definition is_scheme_char (c : ascii) : bool :=
  let n := N_of_ascii c in
  is_alpha c || ((48 <=? n) && (n <=? 57))%N
  || Ascii.eqb c "+" || Ascii.eqb c "-" || Ascii.eqb c ".".

Definition lower (c : ascii) : ascii :=
  let n := N_of_ascii c in
  if ((65 <=? n) && (n <=? 90))%N then ascii_of_N (n + 32) else c.

Fixpoint lowercase (s : string) : string :=
  match s with
  | EmptyString => EmptyString
  | String c s' => String (lower c) (lowercase s')
  end.

Fixpoint all_chars (p : ascii -> bool) (s : string) : bool :=
  match s with
  | EmptyString => true
  | String c s' => p c && all_chars p s'
  end.

(** The scheme of [s] in lower case and what follows its colon, when [s]
    starts with a scheme. *)
Definition scheme_of (s : string) : option (string * string) :=
  match cut ":" s with
  | (String c sch, Some rest) =>
      if is_alpha c && all_chars is_scheme_char sch
      then Some (lowercase (String c sch), rest)
      else None
  | _ => None
  end.

(** Path segments with [.] and [..] resolved; [acc] holds the segments kept
    so far, the last one first. *)
Fixpoint resolve_dots (segs acc : list string) : list string :=
  match segs with
  | [] => rev acc
  | seg :: rest =>
      let is_last := match rest with [] => true | _ :: _ => false end in
      if String.eqb seg ".." then
        resolve_dots rest (if is_last then EmptyString :: tail acc else tail acc)
      else if String.eqb seg "." then
        resolve_dots rest (if is_last then EmptyString :: acc else acc)
      else resolve_dots rest (seg :: acc)
  end.

(** The segments of a path that starts with a slash. *)
Definition segments (path : string) : list string :=
  match path with
  | String "/" rest => split_on "/" rest
  | _ => split_on "/" path
  end.

Definition path_of (segs : list string) : string := String "/" (join "/" segs).

(** What follows the colon of a scheme, taken apart. *)
Definition parse_after_scheme (scheme rest : string) : t :=
  let '(rest, fragment) := cut "#" rest in
  let '(rest, query) := cut "?" rest in
  match rest with
  | String "/" (String "/" rest) =>
      let '(authority, path) := cut "/" rest in
      {| protocol := (scheme ++ ":")%string;
         authority := Some (lowercase authority);
         pathname := path_of (resolve_dots (split_on "/" (default EmptyString path)) []);
         query := query; fragment := fragment |}
  | _ =>
      {| protocol := (scheme ++ ":")%string; authority := None;
         pathname := rest; query := query; fragment := fragment |}
  end.

(** A reference without a scheme, resolved against the base [b]. *)
Definition resolve (b : t) (input : string) : t :=
  let '(rest, fragment) := cut "#" input in
  let '(rest, query) := cut "?" rest in
  match rest with
  | String "/" (String "/" _) =>
      parse_after_scheme (String.substring 0 (String.length (protocol b) - 1) (protocol b)) input
  | String "/" _ =>
      {| protocol := protocol b; authority := authority b;
         pathname := path_of (resolve_dots (segments rest) []);
         query := query; fragment := fragment |}
  | EmptyString =>
      {| protocol := protocol b; authority := authority b;
         pathname := pathname b;
         query := match query with Some q => Some q | None => URL.query b end;
         fragment := fragment |}
  | _ =>
      {| protocol := protocol b; authority := authority b;
         pathname := path_of (resolve_dots
                       (removelast (segments (pathname b)) ++ split_on "/" rest) []);
         query := query; fragment := fragment |}
  end.

Definition invalid : Exception := {| name := "TypeError"; message := "Invalid URL" |}.

(** [new URL(input, base)] on such URLs; a base must be hierarchical. *)
Definition parse (input : string) (base : option string) : Completion Exception t :=
  match scheme_of input with
  | Some (scheme, rest) => Normal (parse_after_scheme scheme rest)
  | None =>
      match base with
      | None => Throw invalid
      | Some base =>
          match scheme_of base with
          | None => Throw invalid
          | Some (scheme, rest) =>
              let b := parse_after_scheme scheme rest in
              match authority b with
              | Some _ => Normal (resolve b input)
              | None => Throw invalid
              end
          end
      end
  end.

End URL.

(** ** Completions and traces as monads *)

Global Instance Completion_ret {E} : MRet (Completion E) := fun _ a => Normal a.
Global Instance Completion_bind {E} : MBind (Completion E) :=
  fun _ _ k c => match c with Normal a => k a | Throw e => Throw e end.

(** What the module does to the outside world, in the order it happens. *)
Inductive Event :=
| Fetched (url : URL.t) (init : gmap string JSValue)   (* fetch(url, init) *)
| TimerSet (ms : Q).                                   (* setTimeout(resolve, ms) *)

Definition is_fetch (ev : Event) : bool :=
  match ev with Fetched _ _ => true | TimerSet _ => false end.

(** The number of network calls recorded in a trace. *)
Definition fetch_count (t : list Event) : nat := length (List.filter is_fetch t).

(** The timer delays recorded in a trace, in order. *)
Definition timers (t : list Event) : list Q :=
  omap (fun ev => match ev with TimerSet ms => Some ms | Fetched _ _ => None end) t.

(** The URLs requested in a trace, serialised, in order. *)
Definition requested (t : list Event) : list string :=
  omap (fun ev => match ev with Fetched url _ => Some (URL.href url) | TimerSet _ => None end) t.

(** An asynchronous computation: from the trace so far to its completion and
    the extended trace. *)
Definition Async (E A : Type) : Type := list Event -> Completion E A * list Event.

Global Instance Async_ret {E} : MRet (Async E) := fun _ a t => (Normal a, t).
Global Instance Async_bind {E} : MBind (Async E) :=
  fun _ _ k m t =>
    match m t with
    | (Normal a, t') => k a t'
    | (Throw e, t') => (Throw e, t')
    end.

Definition throw {E A} (e : E) : Async E A := fun t => (Throw e, t).

(** [promise.catch(handler)] *)
Definition catch {E E' A} (m : Async E A) (handler : E -> Async E' A) : Async E' A :=
  fun t =>
    match m t with
    | (Normal a, t') => (Normal a, t')
    | (Throw e, t') => handler e t'
    end.

(** A computation that settles without touching the outside world. *)
Definition settled {E A} (c : Completion E A) : Async E A := fun t => (c, t).

(** A host exception that leaves the module unchanged. *)
Definition passing {A} (c : Completion Exception A) : Completion JSError A :=
  match c with Normal a => Normal a | Throw e => Throw (Native e) end.

(** Awaiting a host promise inside the module. *)
Definition await {A} (c : Completion Exception A) : Async JSError A :=
  settled (passing c).

(** ** Options *)

(** Modelled from the spec: the type [RequestOptions] of
    [@gitbeaker/requester-utils], whose declaration is outside this package.
    The three properties that [defaultRequestHandler] takes apart are fields;
    every other property (method, headers, body, agent, ...) is in [others]. *)
Record RequestOptions := {
  prefixUrl : option string;
  asStream : option bool;
  searchParams : option string;
  others : gmap string JSValue
}.

(** [options.agent = agent] *)
Definition set_agent (options : RequestOptions) (agent : JSValue) : RequestOptions :=
  {| prefixUrl := prefixUrl options;
     asStream := asStream options;
     searchParams := searchParams options;
     others := <["agent" := agent]> (others options) |}.

(** [{}] *)
Definition no_options : RequestOptions :=
  {| prefixUrl := None; asStream := None; searchParams := None; others := ∅ |}.

(** Modelled from the spec: the type [DefaultResourceOptions] of
    [@gitbeaker/requester-utils]; [defaultOptionsHandler] reads [url] and
    [rejectUnauthorized] (undefined or null as [None]). *)
Record DefaultResourceOptions := {
  url : string;
  rejectUnauthorized : option bool;
  resource_others : gmap string JSValue
}.

(** What a successful call returns: [{ body, headers, status }]. *)
Record ParsedResponse := {
  body : JSValue;
  headers : gmap string string;
  status : Z
}.

(** [Object.fromEntries]: a later entry replaces an earlier one. *)
Definition Object_fromEntries (es : list (string * string)) : gmap string string :=
  fold_left (fun m e => <[e.1 := e.2]> m) es ∅.

(** [v.k] for the two property names the module reads: undefined and null
    have no properties, values other than objects have neither of the two. *)
Definition get_property (v : JSValue) (k : string) : Completion Exception JSValue :=
  match v with
  | JUndefined | JNull => Throw (TypeError "Cannot read properties of null or undefined")
  | JObject props => Normal (default JUndefined (own_property k props))
  | _ => Normal JUndefined
  end.

(** ** The module *)

Module Requester.
Section Host.

(** *** The host *)

(** [JSON.parse(text)] and [JSON.stringify(value, null, indent)]
    (undefined as [None]). *)
Variable JSON_parse : string -> Completion Exception JSValue.
Variable JSON_stringify : JSValue -> nat -> option string.

(** [new URL(input, base)] *)
Variable URL_new : string -> option string -> Completion Exception URL.t.

(** How the [n]-th call of [fetch] (counted from 0) settles. *)
Variable network : nat -> Completion Exception Response.t.

(** [typeof window], and how [import('https')] settles. *)
Variable typeof_window : string.
Variable import_https : Completion Exception unit.

(** The option builder of [@gitbeaker/requester-utils], imported as
    [baseOptionsHandler], and the type of the request options it takes. *)
Variable DefaultRequestOptions : Type.
Variable empty_request_options : DefaultRequestOptions.
Variable baseOptionsHandler :
  DefaultResourceOptions -> DefaultRequestOptions -> Completion JSError RequestOptions.

(** *** Effects *)

Definition fetch (url : URL.t) (init : gmap string JSValue) : Async Exception Response.t :=
  fun t => (network (fetch_count t), t ++ [Fetched url init]).

Definition setTimeout (ms : Q) : Async JSError unit :=
  fun t => (Normal tt, t ++ [TimerSet ms]).

(** *** [defaultOptionsHandler] *)

Definition defaultOptionsHandler
    (resourceOptions : DefaultResourceOptions)
    (requestOptions : option DefaultRequestOptions)
    : Completion JSError RequestOptions :=
  options ← baseOptionsHandler resourceOptions
              (default empty_request_options requestOptions);
  if JSString.includes (url resourceOptions) "https"
     && bool_decide (rejectUnauthorized resourceOptions ≠ None)
     && bool_decide (rejectUnauthorized resourceOptions = Some false)
  then
    if negb (String.eqb typeof_window "object") then
      _ ← passing import_https;
      Normal (set_agent options (JAgent {| agent_rejectUnauthorized := false |}))
    else Normal options
  else Normal options.

(** *** [processBody] *)

Definition processBody (response : Response.t) : Completion Exception JSValue :=
  (* Split to remove potential charset info from the content type *)
  let contentType :=
    JSString.trim
      (JSString.split_first ";"
         (JSString.or_else
            (Headers.get (Response.headers response) "content-type")
            EmptyString)) in
  if String.eqb contentType "application/json" then
    v ← Response.json response; Normal (js_or v (JObject []))
  else if JSString.startsWith contentType "text/" then
    t ← Response.text response;
    Normal (JString (JSString.or_else (Some t) EmptyString))
  else
    b ← Response.blob response; Normal (JBlob b).

(** *** [delay] *)

Definition delay (ms : Q) : Async JSError unit := setTimeout ms.

(** *** [parseResponse] *)

Definition parseResponse (response : Response.t) (asStream : bool)
    : Completion Exception ParsedResponse :=
  let status := Response.status response in
  let rawHeaders := Response.headers response in
  let headers := Object_fromEntries (Headers.entries rawHeaders) in
  body ←
    (if asStream then
       Normal (match Response.body response with
               | Some s => JStream s
               | None => JNull
               end)
     else if status =? 204 then Normal JNull
     else processBody response);
  Normal {| body := body; headers := headers; status := status |}.

(** *** [throwFailedRequestError] *)

Definition throwFailedRequestError (response : Response.t) : Completion JSError unit :=
  content ← passing (Response.text response);
  let contentType := Headers.get (Response.headers response) "Content-Type" in
  description ← passing
    (if match contentType with
        | Some ct => JSString.includes ct "application/json"
        | None => false
        end
     then
       output ← JSON_parse content;
       error ← get_property output "error";
       selected ← (if truthy error then Normal error
                   else get_property output "message");
       Normal (JSON_stringify selected 2)
     else Normal (Some content));
  Throw (NewError (Response.statusText response)
           (Some {| description := description; response := response |})).

(** *** [getConditionalMode] *)

Definition getConditionalMode (endpoint : string) : JSValue :=
  if JSString.includes endpoint "repository/archive" then JString "same-origin"
  else JUndefined. (* Default is 'cors' *)

(** *** [defaultRequestHandler] *)

Definition retryCodes : list Z := [429; 502].
Definition maxRetries : nat := 10.

(** The literal [0.1] read as one tenth.  For [0 <= i < 10] the double
    [2 ** i * 0.1] is the double nearest to this rational: scaling by a
    power of two is exact. *)
Definition backoff (i : nat) : Q := (2 ^ Z.of_nat i * 0.1)%Q.

(** The [for] loop, by the number of iterations that remain
    ([maxRetries - i]); [i] is the loop variable. *)
Fixpoint attempts (remaining i : nat) (url : URL.t) (init : gmap string JSValue)
    (asStream : bool) : Async JSError ParsedResponse :=
  match remaining with
  | O => throw (NewError "Could not successfully complete this request" None)
  | S remaining' =>
      response ← catch (fetch url init) (fun e =>
        if String.eqb (name e) "TimeoutError" || String.eqb (name e) "AbortError"
        then throw (NewError "Query timeout was reached" None)
        else throw (Native e));
      if Response.ok response then await (parseResponse response asStream)
      else
        (if negb (existsb (Z.eqb (Response.status response)) retryCodes)
         then settled (throwFailedRequestError response)
         else mret tt);;
        (* Retry *)
        delay (backoff i);;
        attempts remaining' (S i) url init asStream
  end.

(** [let baseUrl; if (prefixUrl) baseUrl = ...] *)
Definition baseUrl (prefixUrl : option string) : option string :=
  match prefixUrl with
  | Some p =>
      if JSString.truthy p
      then Some (if JSString.endsWith p "/" then p else (p ++ "/")%string)
      else None
  | None => None
  end.

Definition defaultRequestHandler (endpoint : string) (options : option RequestOptions)
    : Async JSError ParsedResponse :=
  let o := default no_options options in
  let opts := others o in
  let baseUrl := baseUrl (prefixUrl o) in
  url ← await (URL_new endpoint baseUrl);
  let url := URL.set_search url (JSString.or_else (searchParams o) EmptyString) in
  let mode := getConditionalMode endpoint in
  attempts maxRetries 0 url (<["mode" := mode]> opts) (default false (asStream o)).

End Host.
End Requester.

Import Requester.

(** ** A host for the examples *)

Module Mock.

Definition quote : string := String "034"%char EmptyString.

(** The text of an object with one string property. *)
Definition object_text (k v : string) : string :=
  ("{" ++ quote ++ k ++ quote ++ ": " ++ quote ++ v ++ quote ++ "}")%string.

Definition SyntaxError : Exception :=
  {| name := "SyntaxError"; message := "Unexpected token" |}.

(** [JSON.parse] on the texts of the examples. *)
Definition JSON_parse (s : string) : Completion Exception JSValue :=
  if String.eqb s (object_text "error" "msg") then
    Normal (JObject [("error"%string, JString "msg")])
  else if String.eqb s (object_text "message" "msg") then
    Normal (JObject [("message"%string, JString "msg")])
  else if String.eqb s "{}" then Normal (JObject [])
  else if String.eqb s "false" then Normal (JBool false)
  else Throw SyntaxError.

(** [JSON.stringify] on strings without characters to escape, undefined
    and null. *)
Definition JSON_stringify (v : JSValue) (indent : nat) : option string :=
  match v with
  | JUndefined => None
  | JString s => Some (quote ++ s ++ quote)%string
  | _ => Some "null"%string
  end.

Definition json_headers : Headers.t :=
  {| Headers.get := fun _ => Some "application/json"%string;
     Headers.entries := [("content-type", "application/json")]%string |}.

(** A response with a JSON content type whose body is [bodyText], with
    [ok] as [fetch] sets it. *)
Definition respond (status : Z) (statusText bodyText : string) : Response.t :=
  {| Response.ok := (200 <=? status) && (status <=? 299);
     Response.status := status;
     Response.statusText := statusText;
     Response.headers := json_headers;
     Response.body := Some {| stream_bytes := bodyText |};
     Response.json := JSON_parse bodyText;
     Response.text := Normal bodyText;
     Response.blob := Normal {| blob_bytes := bodyText;
                                blob_type := "application/json" |} |}.

Definition tooManyRequests : Response.t := respond 429 "Too Many Requests" "{}".
Definition badGateway : Response.t := respond 502 "Bad Gateway" "{}".
Definition success : Response.t := respond 200 "OK" "{}".
Definition notImplemented : Response.t :=
  respond 501 "Really Bad Error" (object_text "error" "msg").
Definition noContent : Response.t := respond 204 "No Content" EmptyString.

(** An ok JSON response whose body is the four characters [false]. *)
Definition falseBody : Response.t := respond 200 "OK" "false".

(** Statuses 429, 502, 200 on successive attempts. *)
Definition flaky (n : nat) : Completion Exception Response.t :=
  match n with
  | 0%nat => Normal tooManyRequests
  | 1%nat => Normal badGateway
  | _ => Normal success
  end.

(** Status 429 on every attempt. *)
Definition throttled (n : nat) : Completion Exception Response.t :=
  Normal tooManyRequests.

(** Status 429 once, then a transport timeout. *)
Definition timing_out (n : nat) : Completion Exception Response.t :=
  match n with
  | 0%nat => Normal tooManyRequests
  | _ => Throw {| name := "TimeoutError"; message := "The operation timed out" |}
  end.

Definition always (r : Response.t) (n : nat) : Completion Exception Response.t :=
  Normal r.

Definition options : RequestOptions :=
  {| prefixUrl := Some "http://test.com/projects"%string;
     asStream := None;
     searchParams := Some "test=4"%string;
     others := ∅ |}.

(** A prefix that brings a query, and no search parameters. *)
Definition bare_options : RequestOptions :=
  {| prefixUrl := Some "http://test.com/api/v4?private=1"%string;
     asStream := None;
     searchParams := None;
     others := ∅ |}.

End Mock.

(** ** Outcomes of an attempt, and sums of delays *)

(** Whether the outcome of a [fetch] sends the loop round again: a response
    that is not ok and whose status is a retry code. *)
Definition retries (outcome : Completion Exception Response.t) : bool :=
  match outcome with
  | Normal r => negb (Response.ok r) && existsb (Z.eqb (Response.status r)) retryCodes
  | Throw _ => false
  end.

(** The sum of a list of delays. *)
Definition total (delays : list Q) : Q := fold_right Qplus 0%Q delays.

(** The error thrown after the loop. *)
Definition exhausted : JSError :=
  NewError "Could not successfully complete this request" None.

(** [new Agent({ rejectUnauthorized: false })] *)
Definition bypass : JSValue := JAgent {| agent_rejectUnauthorized := false |}.

(** [options] with another [prefixUrl], and with another [searchParams]. *)
Definition with_prefixUrl (options : RequestOptions) (p : option string) : RequestOptions :=
  {| prefixUrl := p; asStream := asStream options;
     searchParams := searchParams options; others := others options |}.

Definition with_searchParams (options : RequestOptions) (q : option string) : RequestOptions :=
  {| prefixUrl := prefixUrl options; asStream := asStream options;
     searchParams := q; others := others options |}.

(** ** More responses for the examples *)

Module Fixture.

Definition text_headers : Headers.t :=
  {| Headers.get := fun _ => Some "text/plain; charset=utf-8"%string;
     Headers.entries := [("content-type", "text/plain; charset=utf-8")]%string |}.

(** No header at all: [get] answers null. *)
Definition no_headers : Headers.t :=
  {| Headers.get := fun _ => None; Headers.entries := [] |}.

(** The same header twice, as [entries] may list it. *)
Definition repeated_headers : Headers.t :=
  {| Headers.get := fun _ => Some "application/json"%string;
     Headers.entries := [("x-page", "1"); ("content-type", "application/json");
                         ("x-page", "2")]%string |}.

(** The text of an object with an empty [error] and a [message]. *)
Definition empty_error_text : string :=
  ("{" ++ Mock.quote ++ "error" ++ Mock.quote ++ ": " ++ Mock.quote ++ Mock.quote
   ++ ", " ++ Mock.quote ++ "message" ++ Mock.quote ++ ": "
   ++ Mock.quote ++ "msg" ++ Mock.quote ++ "}")%string.

(** [JSON.parse] on the texts of the examples, [null] and the text above
    included. *)
Definition JSON_parse (s : string) : Completion Exception JSValue :=
  if String.eqb s empty_error_text then
    Normal (JObject [("error"%string, JString EmptyString);
                     ("message"%string, JString "msg")])
  else if String.eqb s "null" then Normal JNull
  else Mock.JSON_parse s.

(** A response with the given headers whose body is [bodyText]. *)
Definition respond (status : Z) (statusText : string) (hs : Headers.t)
    (bodyText : string) : Response.t :=
  {| Response.ok := (200 <=? status) && (status <=? 299);
     Response.status := status;
     Response.statusText := statusText;
     Response.headers := hs;
     Response.body := Some {| stream_bytes := bodyText |};
     Response.json := JSON_parse bodyText;
     Response.text := Normal bodyText;
     Response.blob := Normal {| blob_bytes := bodyText; blob_type := EmptyString |} |}.

Definition notFound : Response.t := respond 404 "Not Found" text_headers "no such project".
Definition bareError : Response.t := respond 500 "Internal Server Error" no_headers "boom".
Definition brokenJson : Response.t :=
  respond 500 "Internal Server Error" Mock.json_headers "<html>".
Definition nullJson : Response.t :=
  respond 500 "Internal Server Error" Mock.json_headers "null".
Definition emptyError : Response.t :=
  respond 400 "Bad Request" Mock.json_headers empty_error_text.
Definition plainText : Response.t := respond 200 "OK" text_headers "hello".
Definition emptyText : Response.t := respond 200 "OK" text_headers EmptyString.
Definition binary : Response.t := respond 200 "OK" no_headers "PK".
Definition paged : Response.t := respond 200 "OK" repeated_headers "{}".

(** A JSON content type with white space around it and a charset. *)
Definition spaced_headers : Headers.t :=
  {| Headers.get := fun _ => Some " application/json ; charset=utf-8"%string;
     Headers.entries := [("content-type", " application/json ; charset=utf-8")]%string |}.

Definition spacedJson : Response.t :=
  respond 200 "OK" spaced_headers (Mock.object_text "message" "msg").

(** A resource reached over https whose certificate is not to be verified. *)
Definition insecure : DefaultResourceOptions :=
  {| url := "https://gitlab.test"; rejectUnauthorized := Some false;
     resource_others := ∅ |}.

(** A base handler that resolves to the request options, for request
    options that are already of type [RequestOptions]. *)
Definition base (resource : DefaultResourceOptions) (request : RequestOptions)
    : Completion JSError RequestOptions := Normal request.

Definition no_https : Exception :=
  {| name := "TypeError"; message := "Failed to resolve module specifier" |}.

(** [http://test.com/projects/testurl/123] and [http://test.com/], parsed. *)
Definition projects_url : URL.t :=
  {| URL.protocol := "http:"; URL.authority := Some "test.com"%string;
     URL.pathname := "/projects/testurl/123"; URL.query := None;
     URL.fragment := None |}.

Definition root_url : URL.t :=
  {| URL.protocol := "http:"; URL.authority := Some "test.com"%string;
     URL.pathname := "/"; URL.query := None; URL.fragment := None |}.

(** An ok JSON response whose body is an object, and one whose body has no
    byte at all: there [response.json()] rejects. *)
Definition messageJson : Response.t :=
  respond 200 "OK" Mock.json_headers (Mock.object_text "message" "msg").
Definition emptyJson : Response.t := respond 200 "OK" Mock.json_headers EmptyString.

(** An ok response that declares JSON and carries markup. *)
Definition markupAsJson : Response.t := respond 200 "OK" Mock.json_headers "<html>".

(** A JSON content type followed by a no-break space (U+00A0) and a
    charset. *)
Definition nbsp_type : string :=
  ("application/json" ++ String "160"%char "; charset=utf-8")%string.

Definition nbsp_headers : Headers.t :=
  {| Headers.get := fun _ => Some nbsp_type;
     Headers.entries := [("content-type"%string, nbsp_type)] |}.

Definition nbspJson : Response.t :=
  respond 200 "OK" nbsp_headers (Mock.object_text "message" "msg").

(** Statuses 429 and 502, then the response [r]. *)
Definition flaky_then (r : Response.t) (n : nat) : Completion Exception Response.t :=
  match n with
  | 0%nat => Normal Mock.tooManyRequests
  | 1%nat => Normal Mock.badGateway
  | _ => Normal r
  end.

(** Statuses 502 and 429 in turn, for ever. *)
Definition overloaded (n : nat) : Completion Exception Response.t :=
  if Nat.even n then Normal Mock.badGateway else Normal Mock.tooManyRequests.

(** Three retried answers, then [r]. *)
Definition after_three (r : Response.t) (n : nat) : Completion Exception Response.t :=
  if (n <? 3)%nat then overloaded n else Normal r.

Definition options : RequestOptions :=
  {| prefixUrl := Some "http://test.com/api/v4"%string;
     asStream := None;
     searchParams := Some "page=2"%string;
     others := {["method"%string := JString "GET"; "mode"%string := JString "no-cors"]} |}.

End Fixture.

(** ** Properties *)

Section Properties.

Variable JSON_parse : string -> Completion Exception JSValue.
Variable JSON_stringify : JSValue -> nat -> option string.
Variable URL_new : string -> option string -> Completion Exception URL.t.
Variable network : nat -> Completion Exception Response.t.

Local Abbreviation attempts := (attempts JSON_parse JSON_stringify network).
Local Abbreviation defaultRequestHandler :=
  (defaultRequestHandler JSON_parse JSON_stringify URL_new network).

(** A response after which the loop goes round again. *)
Definition retried (r : Response.t) : Prop :=
  Response.ok r = false /\ In (Response.status r) retryCodes.

(** What [k] retried attempts, the first with loop variable [i], add to the
    trace. *)
Fixpoint retry_events (url : URL.t) (init : gmap string JSValue) (i k : nat) : list Event :=
  match k with
  | O => []
  | S k' => Fetched url init :: TimerSet (backoff i) :: retry_events url init (S i) k'
  end.

Lemma fetch_count_app (t t' : list Event) :
  fetch_count (t ++ t') = (fetch_count t + fetch_count t')%nat.
Proof using Type. unfold fetch_count. by rewrite List.filter_app, length_app. Qed.

Lemma fetch_count_retry_events url init i k :
  fetch_count (retry_events url init i k) = k.
Proof using Type.
  revert i. induction k as [|k IH]; intros i; [done|].
  cbn [retry_events]. change (fetch_count (?a :: ?b :: ?l)) with (S (fetch_count l)).
  by rewrite IH.
Qed.

Lemma timers_app (t t' : list Event) : timers (t ++ t') = timers t ++ timers t'.
Proof using Type. unfold timers. apply omap_app. Qed.

Lemma timers_retry_events url init i k :
  timers (retry_events url init i k) = map backoff (seq i k).
Proof using Type.
  revert i. induction k as [|k IH]; intros i; [done|].
  cbn [retry_events seq map]. change (timers (?a :: TimerSet ?q :: ?l)) with (q :: timers l).
  by rewrite IH.
Qed.

Lemma retried_status r :
  retried r -> existsb (Z.eqb (Response.status r)) retryCodes = true.
Proof using Type.
  intros [_ Hin]. apply existsb_exists. exists (Response.status r).
  split; [exact Hin | apply Z.eqb_refl].
Qed.

(** One retried attempt: a fetch, a timer, and the loop goes on. *)
Lemma attempts_retry remaining i url init asStream t r :
  network (fetch_count t) = Normal r ->
  retried r ->
  attempts (S remaining) i url init asStream t =
  attempts remaining (S i) url init asStream
    (t ++ [Fetched url init; TimerSet (backoff i)]).
Proof.
  intros Hnet Hr. pose proof (retried_status r Hr) as Hcode. destruct Hr as [Hok _].
  cbn [Requester.attempts]. unfold mbind, Async_bind, catch, fetch at 1.
  rewrite Hnet, Hok, Hcode. cbn.
  unfold delay, setTimeout. by rewrite <- app_assoc.
Qed.

(** [k] retried attempts in a row. *)
Lemma attempts_retries k : forall remaining i url init asStream t,
  (forall j, (j < k)%nat -> exists r, network (fetch_count t + j) = Normal r /\ retried r) ->
  attempts (k + remaining) i url init asStream t =
  attempts remaining (i + k) url init asStream (t ++ retry_events url init i k).
Proof.
  induction k as [|k IH]; intros remaining i url init asStream t Hnet.
  - cbn. by rewrite app_nil_r, Nat.add_0_r.
  - destruct (Hnet 0%nat ltac:(lia)) as (r & Hr & Hretried).
    rewrite Nat.add_0_r in Hr.
    change (S k + remaining)%nat with (S (k + remaining)).
    rewrite (attempts_retry _ _ _ _ _ _ r Hr Hretried).
    rewrite IH.
    + cbn [retry_events]. rewrite <- app_assoc. cbn [app].
      by replace (S i + k)%nat with (i + S k)%nat by lia.
    + intros j Hj. rewrite fetch_count_app. cbn.
      replace (fetch_count t + 1 + j)%nat with (fetch_count t + S j)%nat by lia.
      apply Hnet. lia.
Qed.

(** The attempt that ends the loop with a result. *)
Lemma attempts_ok remaining i url init asStream t r :
  network (fetch_count t) = Normal r ->
  Response.ok r = true ->
  attempts (S remaining) i url init asStream t =
  (passing (parseResponse r asStream), t ++ [Fetched url init]).
Proof.
  intros Hnet Hok. cbn [Requester.attempts].
  unfold mbind, Async_bind, catch, fetch at 1. by rewrite Hnet, Hok.
Qed.

(** The attempt that ends the loop with the error of the response. *)
Lemma attempts_failed remaining i url init asStream t r e :
  network (fetch_count t) = Normal r ->
  Response.ok r = false ->
  ~ In (Response.status r) retryCodes ->
  throwFailedRequestError JSON_parse JSON_stringify r = Throw e ->
  attempts (S remaining) i url init asStream t = (Throw e, t ++ [Fetched url init]).
Proof.
  intros Hnet Hok Hcode Hthrow. cbn [Requester.attempts].
  unfold mbind, Async_bind, catch, fetch at 1. rewrite Hnet, Hok.
  destruct (existsb (Z.eqb (Response.status r)) retryCodes) eqn:Hex.
  - apply existsb_exists in Hex as (c & Hin & Heq).
    apply Z.eqb_eq in Heq. subst c. contradiction.
  - cbn. unfold settled. by rewrite Hthrow.
Qed.

(** The attempt on which the transport fails. *)
Lemma attempts_rejected remaining i url init asStream t e :
  network (fetch_count t) = Throw e ->
  attempts (S remaining) i url init asStream t =
  (Throw (if String.eqb (name e) "TimeoutError" || String.eqb (name e) "AbortError"
          then NewError "Query timeout was reached" None
          else Native e),
   t ++ [Fetched url init]).
Proof.
  intros Hnet. cbn [Requester.attempts].
  unfold mbind, Async_bind, catch, fetch at 1. rewrite Hnet.
  by destruct (String.eqb (name e) "TimeoutError" || String.eqb (name e) "AbortError").
Qed.

(** Once the URL is built the handler is the loop on it. *)
Lemma handler_enters_loop endpoint options u t :
  URL_new endpoint (baseUrl (prefixUrl (default no_options options))) = Normal u ->
  defaultRequestHandler endpoint options t =
  attempts maxRetries 0
    (URL.set_search u (JSString.or_else (searchParams (default no_options options)) EmptyString))
    (<["mode" := getConditionalMode endpoint]> (others (default no_options options)))
    (default false (asStream (default no_options options))) t.
Proof.
  intros Hurl. unfold Requester.defaultRequestHandler.
  unfold mbind at 1, Async_bind at 1, await, settled. by rewrite Hurl.
Qed.

Lemma consistent_not_ok r :
  Response.consistent r -> In (Response.status r) retryCodes -> retried r.
Proof using Type.
  unfold Response.consistent. intros Hc Hin. split; [|exact Hin].
  rewrite Hc. destruct Hin as [<-|[<-|[]]]; reflexivity.
Qed.

(** C1. When the successive attempts are answered with the statuses 429, 502
    and 200, the handler makes exactly three network calls, with the timers
    [backoff 0] and [backoff 1] between them, and then settles as the
    decoding of the third response does.  With streaming it returns the body
    stream.  Without streaming, with [stripped] the content type cut at the
    first semicolon and trimmed: for [application/json] it returns what
    [response.json()] gives, or the empty object when that is falsy; for a
    type that starts with [text/] it returns the text; for any other type
    the blob; and when the decoder rejects, the call throws the decoder's
    exception.  The result carries the headers of the response and the
    status 200.  When ten attempts in a row are answered with 429, the
    handler makes exactly ten calls and then fails with the fixed message
    "Could not successfully complete this request". *)
Theorem retries_until_success_or_exhaustion endpoint options u :
  URL_new endpoint (baseUrl (prefixUrl (default no_options options))) = Normal u ->
  (forall r1 r2 r3 stripped,
      network 0 = Normal r1 -> network 1 = Normal r2 -> network 2 = Normal r3 ->
      Response.consistent r1 -> Response.consistent r2 -> Response.consistent r3 ->
      Response.status r1 = 429 -> Response.status r2 = 502 -> Response.status r3 = 200 ->
      stripped = JSString.trim
                   (JSString.split_first ";"
                      (JSString.or_else
                         (Headers.get (Response.headers r3) "content-type")
                         EmptyString)) ->
      exists t,
        (defaultRequestHandler endpoint options []).2 = t
        /\ fetch_count t = 3%nat
        /\ timers t = [backoff 0; backoff 1]
        /\ (default false (asStream (default no_options options)) = true ->
            (defaultRequestHandler endpoint options []).1 =
              Normal {| body := match Response.body r3 with
                                | Some s => JStream s
                                | None => JNull
                                end;
                        headers := Object_fromEntries (Headers.entries (Response.headers r3));
                        status := 200 |})
        /\ (default false (asStream (default no_options options)) = false ->
            (stripped = "application/json"%string ->
             (forall v, Response.json r3 = Normal v ->
                (defaultRequestHandler endpoint options []).1 =
                  Normal {| body := if truthy v then v else JObject [];
                            headers := Object_fromEntries
                                         (Headers.entries (Response.headers r3));
                            status := 200 |})
             /\ (forall e, Response.json r3 = Throw e ->
                   (defaultRequestHandler endpoint options []).1 = Throw (Native e)))
            /\ (JSString.startsWith stripped "text/" = true ->
                (forall s, Response.text r3 = Normal s ->
                   (defaultRequestHandler endpoint options []).1 =
                     Normal {| body := JString s;
                               headers := Object_fromEntries
                                            (Headers.entries (Response.headers r3));
                               status := 200 |})
                /\ (forall e, Response.text r3 = Throw e ->
                      (defaultRequestHandler endpoint options []).1 = Throw (Native e)))
            /\ (stripped <> "application/json"%string ->
                JSString.startsWith stripped "text/" = false ->
                (forall b, Response.blob r3 = Normal b ->
                   (defaultRequestHandler endpoint options []).1 =
                     Normal {| body := JBlob b;
                               headers := Object_fromEntries
                                            (Headers.entries (Response.headers r3));
                               status := 200 |})
                /\ (forall e, Response.blob r3 = Throw e ->
                      (defaultRequestHandler endpoint options []).1 = Throw (Native e)))))
  /\
  ((forall n, (n < 10)%nat -> exists r,
        network n = Normal r /\ Response.consistent r /\ Response.status r = 429) ->
   exists t, defaultRequestHandler endpoint options [] =
               (Throw (NewError "Could not successfully complete this request" None), t)
             /\ fetch_count t = 10%nat).
Proof.
  intros Hurl. split.
  - intros r1 r2 r3 stripped H0 H1 H2 Hc1 Hc2 Hc3 Hs1 Hs2 Hs3 Hstripped.
    rewrite (handler_enters_loop _ _ _ _ Hurl).
    change maxRetries with (2 + 8)%nat. rewrite attempts_retries.
    + cbn [app]. rewrite (attempts_ok _ _ _ _ _ _ r3).
      * eexists. split; [reflexivity|]. split; [reflexivity|]. split; [reflexivity|].
        cbn [fst]. unfold parseResponse. rewrite Hs3.
        change (200 =? 204) with false. unfold processBody. rewrite <- Hstripped.
        split; [intros ->; reflexivity|]. intros ->.
        split; [|split].
        -- intros ->. cbn [String.eqb Ascii.eqb Bool.eqb andb].
           split; [intros v -> | intros e ->]; reflexivity.
        -- intros Htext.
           destruct (String.eqb_spec stripped "application/json") as [Heq|_];
             [rewrite Heq in Htext; discriminate|].
           rewrite Htext. split; [intros s -> | intros e ->]; [|reflexivity].
           by destruct s.
        -- intros Hjson Htext. apply String.eqb_neq in Hjson. rewrite Hjson, Htext.
           split; [intros b -> | intros e ->]; reflexivity.
      * rewrite fetch_count_retry_events. exact H2.
      * rewrite Hc3, Hs3. reflexivity.
    + intros j Hj. destruct j as [|[|j]]; [exists r1|exists r2|lia];
        (split; [assumption|]); apply consistent_not_ok; try assumption.
      * rewrite Hs1. left. reflexivity.
      * rewrite Hs2. right. left. reflexivity.
  - intros Hnet. rewrite (handler_enters_loop _ _ _ _ Hurl).
    change maxRetries with (10 + 0)%nat. rewrite attempts_retries.
    + cbn [Requester.attempts app]. unfold throw. eexists. split; [reflexivity|].
      apply fetch_count_retry_events.
    + intros j Hj. destruct (Hnet j Hj) as (r & Hr & Hc & Hs).
      exists r. split; [exact Hr|]. apply consistent_not_ok; [exact Hc|].
      rewrite Hs. left. reflexivity.
Qed.

(** Every event that the loop adds to the trace is a timer or a fetch of the
    one URL with the one set of options, and a loop that runs at all
    starts with such a fetch. *)
Definition requests_only (url : URL.t) (init : gmap string JSValue) (t : list Event) : Prop :=
  forall url' init', In (Fetched url' init') t -> url' = url /\ init' = init.

Lemma requests_only_cons_fetch url init t :
  requests_only url init t -> requests_only url init (Fetched url init :: t).
Proof using Type.
  intros H url' init' [Heq|Hin]; [by inversion Heq | by apply H].
Qed.

Lemma requests_only_cons_timer url init ms t :
  requests_only url init t -> requests_only url init (TimerSet ms :: t).
Proof using Type.
  intros H url' init' [Heq|Hin]; [discriminate | by apply H].
Qed.

Lemma requests_only_nil url init : requests_only url init [].
Proof using Type. intros ? ? []. Qed.

Lemma attempts_trace url init asStream remaining : forall i t,
  exists t', (attempts remaining i url init asStream t).2 = t ++ t'
             /\ requests_only url init t'
             /\ (remaining <> 0%nat -> exists rest, t' = Fetched url init :: rest).
Proof.
  induction remaining as [|remaining IH]; intros i t.
  - exists []. cbn. rewrite app_nil_r.
    split; [done|]. split; [apply requests_only_nil | done].
  - assert (Hgo : forall t0, t0 = t ++ [Fetched url init] ->
              exists t', (attempts remaining (S i) url init asStream
                            (t0 ++ [TimerSet (backoff i)])).2 = t ++ t'
                         /\ requests_only url init t'
                         /\ (S remaining <> 0%nat -> exists rest, t' = Fetched url init :: rest)).
    { intros t0 ->.
      destruct (IH (S i) ((t ++ [Fetched url init]) ++ [TimerSet (backoff i)]))
        as (t' & Heq & Honly & _).
      exists (Fetched url init :: TimerSet (backoff i) :: t').
      rewrite Heq, <- !app_assoc. cbn [app].
      split; [done|].
      split; [by apply requests_only_cons_fetch, requests_only_cons_timer | eauto]. }
    assert (Hstop : forall c : Completion JSError ParsedResponse,
              exists t', (c, t ++ [Fetched url init]).2 = t ++ t'
                         /\ requests_only url init t'
                         /\ (S remaining <> 0%nat -> exists rest, t' = Fetched url init :: rest)).
    { intros c. exists [Fetched url init]. cbn.
      split; [done|].
      split; [apply requests_only_cons_fetch, requests_only_nil | eauto]. }
    cbn [Requester.attempts]. unfold mbind, Async_bind, catch, fetch at 1.
    destruct (network (fetch_count t)) as [r|e].
    + destruct (Response.ok r); [apply Hstop|].
      destruct (negb (existsb (Z.eqb (Response.status r)) retryCodes)).
      * unfold settled.
        destruct (throwFailedRequestError JSON_parse JSON_stringify r) as [[]|e].
        -- unfold delay, setTimeout. by apply Hgo.
        -- apply Hstop.
      * cbn. unfold delay, setTimeout. by apply Hgo.
    + destruct (String.eqb (name e) "TimeoutError" || String.eqb (name e) "AbortError");
        apply Hstop.
Qed.

(** The same for the handler: there is a first request as soon as the URL
    could be built. *)
Lemma handler_trace endpoint options u :
  URL_new endpoint (baseUrl (prefixUrl (default no_options options))) = Normal u ->
  let url := URL.set_search u
               (JSString.or_else (searchParams (default no_options options)) EmptyString) in
  let init := <["mode" := getConditionalMode endpoint]> (others (default no_options options)) in
  requests_only url init (defaultRequestHandler endpoint options []).2
  /\ exists rest, (defaultRequestHandler endpoint options []).2 = Fetched url init :: rest.
Proof.
  intros Hurl url init. rewrite (handler_enters_loop _ _ _ _ Hurl).
  destruct (attempts_trace url init
              (default false (asStream (default no_options options))) maxRetries 0 [])
    as (t' & Heq & Honly & Hfirst).
  fold url init. rewrite Heq. cbn [app]. split; [exact Honly|].
  by apply Hfirst.
Qed.

Lemma handler_trace_no_url endpoint options e :
  URL_new endpoint (baseUrl (prefixUrl (default no_options options))) = Throw e ->
  defaultRequestHandler endpoint options [] = (Throw (Native e), []).
Proof.
  intros Hurl. unfold Requester.defaultRequestHandler.
  unfold mbind at 1, Async_bind at 1, await, settled. by rewrite Hurl.
Qed.

(** *** Substrings *)

Lemma prefix_spec (p s : string) :
  String.prefix p s = true <-> exists post, s = (p ++ post)%string.
Proof using Type.
  revert s. induction p as [|a p IH]; intros [|b s]; cbn.
  - split; [intros _; by exists EmptyString | done].
  - split; [intros _; by exists (String b s) | done].
  - split; [done | intros (post & H); discriminate].
  - destruct (ascii_dec a b) as [->|Hne].
    + rewrite IH. split; intros (post & H); exists post; [by rewrite H | by inversion H].
    + split; [done | intros (post & H); inversion H; congruence].
Qed.

(** [includes] finds exactly the occurrences of [p] inside [s]. *)
Lemma includes_spec (s p : string) :
  JSString.includes s p = true <-> exists pre post, s = (pre ++ p ++ post)%string.
Proof using Type.
  induction s as [|c s IH].
  - cbn [JSString.includes]. rewrite orb_false_r, prefix_spec. split.
    + intros (post & H). by exists EmptyString, post.
    + intros (pre & post & H). destruct pre; [by exists post | discriminate].
  - cbn [JSString.includes]. rewrite orb_true_iff, prefix_spec, IH. split.
    + intros [(post & H)|(pre & post & H)].
      * by exists EmptyString, post.
      * exists (String c pre), post. cbn. by rewrite H.
    + intros (pre & post & H). destruct pre as [|c' pre].
      * left. by exists post.
      * right. exists pre, post. cbn in H. by inversion H.
Qed.

(** C7. As soon as the URL can be built a request is issued, and every
    request of a call, the first one included, is issued with the mode that
    [getConditionalMode] gives for the endpoint: "same-origin" if and only
    if the endpoint contains "repository/archive", and undefined (the
    default mode) for every other endpoint. *)
Theorem mode_same_origin_iff_archive endpoint options :
  (forall u,
      URL_new endpoint (baseUrl (prefixUrl (default no_options options))) = Normal u ->
      exists url init rest,
        (defaultRequestHandler endpoint options []).2 = Fetched url init :: rest
        /\ init !! "mode" = Some (getConditionalMode endpoint))
  /\ (forall url init,
      In (Fetched url init) (defaultRequestHandler endpoint options []).2 ->
      init !! "mode" = Some (getConditionalMode endpoint))
  /\ (getConditionalMode endpoint = JString "same-origin" <->
      exists pre post, endpoint = (pre ++ "repository/archive" ++ post)%string)
  /\ (getConditionalMode endpoint = JUndefined <->
      ~ exists pre post, endpoint = (pre ++ "repository/archive" ++ post)%string).
Proof.
  split; [|split; [|split]].
  - intros u Hurl. destruct (handler_trace _ _ _ Hurl) as [_ (rest & Hfirst)].
    eexists _, _, rest. split; [exact Hfirst|]. apply lookup_insert_eq.
  - intros url init Hin.
    destruct (URL_new endpoint (baseUrl (prefixUrl (default no_options options))))
      as [u|e] eqn:Hurl.
    + destruct (handler_trace _ _ _ Hurl) as [Honly _].
      destruct (Honly _ _ Hin) as [_ ->]. apply lookup_insert_eq.
    + rewrite (handler_trace_no_url _ _ _ Hurl) in Hin. destruct Hin.
  - rewrite <- includes_spec. unfold getConditionalMode.
    destruct (JSString.includes endpoint "repository/archive"); split; done.
  - rewrite <- includes_spec. unfold getConditionalMode.
    destruct (JSString.includes endpoint "repository/archive"); split; done.
Qed.

(** C10. When [searchParams] is absent or empty, the URL of every request
    is the resolved URL with its query removed (its [search] is the empty
    string), whatever query the endpoint or the prefix brought; and such a
    request is issued. *)
Theorem empty_search_params_drop_query endpoint options u :
  searchParams (default no_options options) = None
  \/ searchParams (default no_options options) = Some EmptyString ->
  URL_new endpoint (baseUrl (prefixUrl (default no_options options))) = Normal u ->
  (exists url init rest,
      (defaultRequestHandler endpoint options []).2 = Fetched url init :: rest)
  /\ forall url init,
      In (Fetched url init) (defaultRequestHandler endpoint options []).2 ->
      url = URL.set_search u EmptyString
      /\ URL.query url = None /\ URL.search url = EmptyString.
Proof.
  intros Hsearch Hurl. destruct (handler_trace _ _ _ Hurl) as [Honly (rest & Hfirst)].
  split; [eauto|].
  intros url init Hin. destruct (Honly _ _ Hin) as [-> _].
  by destruct Hsearch as [-> | ->].
Qed.

(** C9. A transport failure on an attempt, after any number of retried
    attempts, ends the call on that attempt: no further network call is
    made, a failure named TimeoutError or AbortError is replaced by the
    error "Query timeout was reached", and any other failure is thrown
    unchanged. *)
Theorem transport_failure_ends_the_call endpoint options u k e :
  URL_new endpoint (baseUrl (prefixUrl (default no_options options))) = Normal u ->
  (k < maxRetries)%nat ->
  (forall j, (j < k)%nat -> exists r, network j = Normal r /\ retried r) ->
  network k = Throw e ->
  exists err t,
    defaultRequestHandler endpoint options [] = (Throw err, t)
    /\ fetch_count t = S k
    /\ (name e = "TimeoutError"%string \/ name e = "AbortError"%string ->
        err = NewError "Query timeout was reached" None)
    /\ (name e <> "TimeoutError"%string -> name e <> "AbortError"%string ->
        err = Native e).
Proof.
  intros Hurl Hk Hretried He. rewrite (handler_enters_loop _ _ _ _ Hurl).
  replace maxRetries with (k + S (maxRetries - S k))%nat by lia.
  rewrite attempts_retries by exact Hretried.
  cbn [app]. rewrite (attempts_rejected _ _ _ _ _ _ e)
    by (by rewrite fetch_count_retry_events).
  eexists _, _. split; [reflexivity|]. split; [|split].
  - rewrite fetch_count_app, fetch_count_retry_events. cbn. lia.
  - intros [-> | ->]; reflexivity.
  - intros H1 H2. apply String.eqb_neq in H1, H2. by rewrite H1, H2.
Qed.

(** C2. After [k] retried attempts the timers set so far are
    [backoff 0], ..., [backoff (k - 1)], and [backoff i] is a tenth of a
    millisecond times [2 ^ i], which is not 100 milliseconds times
    [2 ^ i]. *)
Theorem backoff_is_tenths_of_a_millisecond endpoint options u k :
  URL_new endpoint (baseUrl (prefixUrl (default no_options options))) = Normal u ->
  (k <= maxRetries)%nat ->
  (forall j, (j < k)%nat -> exists r, network j = Normal r /\ retried r) ->
  (exists rest,
      timers (defaultRequestHandler endpoint options []).2
      = map backoff (seq 0 k) ++ rest)
  /\ forall i, (backoff i == 2 ^ Z.of_nat i / 10)%Q
               /\ ~ (backoff i == 100 * 2 ^ Z.of_nat i)%Q.
Proof.
  intros Hurl Hk Hretried. split.
  - rewrite (handler_enters_loop _ _ _ _ Hurl).
    replace maxRetries with (k + (maxRetries - k))%nat by lia.
    rewrite attempts_retries by exact Hretried. cbn [app].
    match goal with
    | |- context [Requester.attempts _ _ _ ?n ?i ?url ?init ?a ?t] =>
        destruct (attempts_trace url init a n i t) as (t' & -> & _)
    end.
    exists (timers t'). by rewrite timers_app, timers_retry_events.
  - intros i. unfold backoff.
    assert (Hpos : (0 < 2 ^ Z.of_nat i)%Q) by (by apply Qpower_0_lt).
    split; [field|].
    intros Heq.
    assert (H : (2 ^ Z.of_nat i * 0.1 < 100 * 2 ^ Z.of_nat i)%Q).
    { rewrite (Qmult_comm 100). apply Qmult_lt_l; [exact Hpos | reflexivity]. }
    rewrite Heq in H. by apply Qlt_irrefl in H.
Qed.

(** C8. A first response that is not ok and whose status is not a retry
    code, with a JSON content type and a body that parses to an object, ends
    the call after that one network call and no timer, with an error whose
    message is the status text and whose cause holds the response itself
    and, as description, the stringified [error] property, or the
    stringified [message] property when there is no [error]; for the body
    [{"error": "msg"}] that is the stringified string [msg]. *)
Theorem failed_request_is_normalised endpoint options u r content ct props :
  URL_new endpoint (baseUrl (prefixUrl (default no_options options))) = Normal u ->
  network 0 = Normal r ->
  Response.ok r = false ->
  ~ In (Response.status r) retryCodes ->
  Response.text r = Normal content ->
  Headers.get (Response.headers r) "Content-Type" = Some ct ->
  JSString.includes ct "application/json" = true ->
  JSON_parse content = Normal (JObject props) ->
  exists d,
    defaultRequestHandler endpoint options [] =
      (Throw (NewError (Response.statusText r)
                (Some {| description := d; response := r |})),
       [Fetched
          (URL.set_search u
             (JSString.or_else (searchParams (default no_options options)) EmptyString))
          (<["mode" := getConditionalMode endpoint]> (others (default no_options options)))])
    /\ (forall e, own_property "error" props = Some e -> truthy e = true ->
                  d = JSON_stringify e 2)
    /\ (own_property "error" props = None ->
        d = JSON_stringify (default JUndefined (own_property "message" props)) 2)
    /\ (props = [("error"%string, JString "msg")] ->
        d = JSON_stringify (JString "msg") 2).
Proof.
  intros Hurl Hnet Hok Hcode Htext Hct Hjson Hparse.
  assert (Hthrow : exists d,
             throwFailedRequestError JSON_parse JSON_stringify r =
               Throw (NewError (Response.statusText r)
                        (Some {| description := d; response := r |}))
             /\ d = JSON_stringify
                      (js_or (default JUndefined (own_property "error" props))
                             (default JUndefined (own_property "message" props))) 2).
  { unfold throwFailedRequestError. rewrite Htext, Hct, Hjson. cbn.
    rewrite Hparse. cbn. unfold js_or.
    destruct (truthy (default JUndefined (own_property "error" props)));
      eexists; split; reflexivity. }
  destruct Hthrow as (d & Hthrow & Hd). exists d. split; [|split; [|split]].
  - rewrite (handler_enters_loop _ _ _ _ Hurl).
    change maxRetries with (S 9). by apply attempts_failed with (r := r).
  - intros e He Htruthy. rewrite Hd, He. cbn. unfold js_or. by rewrite Htruthy.
  - intros He. rewrite Hd, He. reflexivity.
  - intros ->. rewrite Hd. reflexivity.
Qed.

(** C4. Without streaming, a response with status 204 is parsed to a null
    body whatever its headers and without any of its decoders being used;
    with streaming, every response, with status 204 or not, is parsed to
    its undecoded body stream.  So a non-streaming call answered at once
    by an ok response with status 204 returns a null body. *)
Theorem no_content_gives_null_body :
  (forall r, Response.status r = 204 ->
      parseResponse r false =
        Normal {| body := JNull;
                  headers := Object_fromEntries (Headers.entries (Response.headers r));
                  status := 204 |})
  /\ (forall r,
      parseResponse r true =
        Normal {| body := match Response.body r with
                          | Some s => JStream s
                          | None => JNull
                          end;
                  headers := Object_fromEntries (Headers.entries (Response.headers r));
                  status := Response.status r |})
  /\ (forall endpoint options u r,
      URL_new endpoint (baseUrl (prefixUrl (default no_options options))) = Normal u ->
      network 0 = Normal r ->
      Response.ok r = true ->
      Response.status r = 204 ->
      default false (asStream (default no_options options)) = false ->
      exists result t,
        defaultRequestHandler endpoint options [] = (Normal result, t)
        /\ body result = JNull /\ fetch_count t = 1%nat).
Proof.
  split; [|split].
  - intros r Hs. unfold parseResponse. by rewrite Hs.
  - intros r. reflexivity.
  - intros endpoint options u r Hurl Hnet Hok Hs Hstream.
    rewrite (handler_enters_loop _ _ _ _ Hurl).
    change maxRetries with (S 9). rewrite (attempts_ok _ _ _ _ _ [] r Hnet Hok).
    rewrite Hstream. unfold parseResponse. rewrite Hs. cbn.
    eexists _, _. split; [reflexivity|]. split; reflexivity.
Qed.

(** C3. For a response whose content type, cut at the first semicolon and
    trimmed of white space, is application/json and whose body parses to the
    value [v] ([response.json()] resolves to [v]), [processBody] returns [v]
    when [v] is truthy and the empty object when [v] is falsy, that is when
    [v] is null, undefined, false, zero or the empty string.  Nothing is
    stated here for a body that does not parse, the empty body included. *)
Theorem json_body_or_empty_object r ct v :
  Headers.get (Response.headers r) "content-type" = Some ct ->
  JSString.trim (JSString.split_first ";" ct) = "application/json"%string ->
  Response.json r = Normal v ->
  processBody r = Normal (if truthy v then v else JObject [])
  /\ (truthy v = false <->
      v = JUndefined \/ v = JNull \/ v = JBool false
      \/ (exists x, v = JNumber x /\ (x == 0)%Q) \/ v = JString EmptyString).
Proof using Type.
  clear JSON_parse JSON_stringify URL_new network.
  intros Hct Htype Hjson. split.
  - unfold processBody. rewrite Hct, Hjson.
    destruct ct as [|c ct]; [discriminate|].
    cbn [JSString.or_else JSString.truthy]. rewrite Htype. reflexivity.
  - destruct v as [| |[]|x|[|c s]|items|props|b|st|a]; cbn; split;
      try (intros; discriminate); try tauto;
      try (intros [H|[H|[H|[(x0 & H & _)|H]]]]; discriminate).
    + intros H. right. right. right. left. exists x. split; [reflexivity|].
      apply negb_false_iff, Qeq_bool_iff in H. exact H.
    + intros [H|[H|[H|[(x0 & H & Hx)|H]]]]; try discriminate.
      inversion H; subst x0. apply negb_false_iff, Qeq_bool_iff. exact Hx.
Qed.

End Properties.

(** *** The request URL *)

Lemma requested_requests_only url init t :
  requests_only url init t -> requested t = repeat (URL.href url) (fetch_count t).
Proof.
  induction t as [|ev t IH]; intros Honly; [reflexivity|].
  assert (Ht : requests_only url init t).
  { intros url' init' Hin. apply Honly. by right. }
  destruct ev as [url' init'|ms].
  - destruct (Honly url' init' ltac:(by left)) as [-> _].
    change (requested (Fetched url init' :: t)) with (URL.href url :: requested t).
    change (fetch_count (Fetched url init' :: t)) with (S (fetch_count t)).
    cbn [repeat]. by rewrite IH.
  - change (requested (TimerSet ms :: t)) with (requested t).
    change (fetch_count (TimerSet ms :: t)) with (fetch_count t). by apply IH.
Qed.

(** C5. With the URL parser above, the endpoint [testurl/123] and the search
    parameters [test=4], the prefixes [http://test.com/projects] and
    [http://test.com/projects/] give the same call, and every request of
    that call (there is at least one) goes to
    [http://test.com/projects/testurl/123?test=4]. *)
Theorem prefix_slash_is_immaterial JSON_parse JSON_stringify network stream rest :
  defaultRequestHandler JSON_parse JSON_stringify URL.parse network "testurl/123"
    (Some {| prefixUrl := Some "http://test.com/projects"%string; asStream := stream;
             searchParams := Some "test=4"%string; others := rest |}) []
  = defaultRequestHandler JSON_parse JSON_stringify URL.parse network "testurl/123"
      (Some {| prefixUrl := Some "http://test.com/projects/"%string; asStream := stream;
               searchParams := Some "test=4"%string; others := rest |}) []
  /\ exists n,
      requested
        (defaultRequestHandler JSON_parse JSON_stringify URL.parse network "testurl/123"
           (Some {| prefixUrl := Some "http://test.com/projects"%string; asStream := stream;
                    searchParams := Some "test=4"%string; others := rest |}) []).2
      = repeat "http://test.com/projects/testurl/123?test=4"%string (S n).
Proof.
  split.
  - by rewrite !(handler_enters_loop _ _ _ _ _ _
                   {| URL.protocol := "http:"; URL.authority := Some "test.com"%string;
                      URL.pathname := "/projects/testurl/123"; URL.query := None;
                      URL.fragment := None |}).
  - destruct (handler_trace JSON_parse JSON_stringify URL.parse network "testurl/123"
                (Some {| prefixUrl := Some "http://test.com/projects"%string;
                         asStream := stream; searchParams := Some "test=4"%string;
                         others := rest |})
                {| URL.protocol := "http:"; URL.authority := Some "test.com"%string;
                   URL.pathname := "/projects/testurl/123"; URL.query := None;
                   URL.fragment := None |} eq_refl) as [Honly (tl & Hfirst)].
    rewrite (requested_requests_only _ _ _ Honly), Hfirst.
    exists (fetch_count tl). reflexivity.
Qed.

(** *** The options handler *)

Section OptionsProperties.

Variable typeof_window : string.
Variable import_https : Completion Exception unit.
Variable DefaultRequestOptions : Type.
Variable empty_request_options : DefaultRequestOptions.
Variable baseOptionsHandler :
  DefaultResourceOptions -> DefaultRequestOptions -> Completion JSError RequestOptions.

Local Abbreviation defaultOptionsHandler :=
  (defaultOptionsHandler typeof_window import_https DefaultRequestOptions
     empty_request_options baseOptionsHandler).

(** When the base handler and the import succeed, the agent is attached
    exactly when the URL text contains [https], [rejectUnauthorized] is
    false and [window] is not an object. *)
Lemma defaultOptionsHandler_agent resourceOptions requestOptions options :
  baseOptionsHandler resourceOptions (default empty_request_options requestOptions)
    = Normal options ->
  import_https = Normal tt ->
  defaultOptionsHandler resourceOptions requestOptions =
    Normal (if JSString.includes (url resourceOptions) "https"
               && bool_decide (rejectUnauthorized resourceOptions = Some false)
               && negb (String.eqb typeof_window "object")
            then set_agent options (JAgent {| agent_rejectUnauthorized := false |})
            else options).
Proof.
  intros Hbase Himport. unfold Requester.defaultOptionsHandler.
  rewrite Hbase, Himport. cbn.
  destruct (JSString.includes (url resourceOptions) "https"); [|reflexivity].
  destruct (rejectUnauthorized resourceOptions) as [[]|]; cbn; try reflexivity.
  by destruct (String.eqb typeof_window "object").
Qed.

End OptionsProperties.

(** C6. Outside a browser, with [rejectUnauthorized] false, the resource URL
    [http://example.com/https], whose scheme is http, gets the agent that
    skips certificate verification: the text of the URL contains [https]. *)
Theorem agent_attached_to_http_url options rest :
  exists result,
    defaultOptionsHandler "undefined" (Normal tt) unit tt (fun _ _ => Normal options)
      {| url := "http://example.com/https"; rejectUnauthorized := Some false;
         resource_others := rest |} None = Normal result
    /\ others result !! "agent" = Some (JAgent {| agent_rejectUnauthorized := false |})
    /\ JSString.startsWith "http://example.com/https" "https" = false.
Proof.
  eexists. split; [|split].
  - apply defaultOptionsHandler_agent; reflexivity.
  - cbn. apply lookup_insert_eq.
  - reflexivity.
Qed.

(** ** The properties on the example host *)

Lemma retries_until_success_or_exhaustion_witness :
  (exists t,
      defaultRequestHandler Mock.JSON_parse Mock.JSON_stringify URL.parse
        (Fixture.flaky_then Fixture.messageJson) "testurl/123" (Some Mock.options) [] =
        (Normal {| body := JObject [("message"%string, JString "msg")];
                   headers := {["content-type"%string := "application/json"%string]};
                   status := 200 |}, t)
      /\ fetch_count t = 3%nat)
  /\ (exists t,
      defaultRequestHandler Mock.JSON_parse Mock.JSON_stringify URL.parse Mock.throttled
        "testurl/123" (Some Mock.options) [] =
        (Throw (NewError "Could not successfully complete this request" None), t)
      /\ fetch_count t = 10%nat).
Proof.
  split.
  - destruct (proj1 (retries_until_success_or_exhaustion
                       Mock.JSON_parse Mock.JSON_stringify URL.parse
                       (Fixture.flaky_then Fixture.messageJson)
                       "testurl/123" (Some Mock.options)
                       {| URL.protocol := "http:"; URL.authority := Some "test.com"%string;
                          URL.pathname := "/projects/testurl/123"; URL.query := None;
                          URL.fragment := None |} eq_refl)
                Mock.tooManyRequests Mock.badGateway Fixture.messageJson
                "application/json"
                eq_refl eq_refl eq_refl eq_refl eq_refl eq_refl eq_refl eq_refl eq_refl
                eq_refl)
      as (t & Htrace & Hcount & _ & _ & Hdecoded).
    destruct (Hdecoded eq_refl) as ((Hjson & _) & _); [reflexivity|].
    exists t. split; [|exact Hcount].
    rewrite (surjective_pairing (defaultRequestHandler _ _ _ _ _ _ _)).
    rewrite Htrace, (Hjson _ eq_refl). reflexivity.
  - apply (proj2 (retries_until_success_or_exhaustion
                    Mock.JSON_parse Mock.JSON_stringify URL.parse Mock.throttled
                    "testurl/123" (Some Mock.options) _ eq_refl)).
    intros n _. exists Mock.tooManyRequests. repeat split.
Defined.

(** The statuses 429, 502 and 200, where the last response declares JSON and
    carries markup: [response.json()] rejects, and so does the call, after
    its three network calls.  No decoded result is returned. *)
Lemma undecodable_answer_is_thrown :
  Response.status Fixture.markupAsJson = 200
  /\ Response.ok Fixture.markupAsJson = true
  /\ Response.text Fixture.markupAsJson = Normal "<html>"%string
  /\ Response.json Fixture.markupAsJson = Throw Mock.SyntaxError
  /\ exists t,
      defaultRequestHandler Mock.JSON_parse Mock.JSON_stringify URL.parse
        (Fixture.flaky_then Fixture.markupAsJson) "testurl/123" (Some Mock.options) [] =
        (Throw (Native Mock.SyntaxError), t)
      /\ fetch_count t = 3%nat.
Proof.
  repeat split.
  exists (defaultRequestHandler Mock.JSON_parse Mock.JSON_stringify URL.parse
            (Fixture.flaky_then Fixture.markupAsJson) "testurl/123"
            (Some Mock.options) []).2.
  split; vm_compute; reflexivity.
Qed.

Lemma backoff_is_tenths_of_a_millisecond_witness :
  (exists rest,
      timers (defaultRequestHandler Mock.JSON_parse Mock.JSON_stringify URL.parse
                Mock.throttled "testurl/123" (Some Mock.options) []).2
      = map backoff (seq 0 4) ++ rest)
  /\ forall i, (backoff i == 2 ^ Z.of_nat i / 10)%Q
               /\ ~ (backoff i == 100 * 2 ^ Z.of_nat i)%Q.
Proof.
  apply (backoff_is_tenths_of_a_millisecond
           Mock.JSON_parse Mock.JSON_stringify URL.parse Mock.throttled
           "testurl/123" (Some Mock.options) _ 4 eq_refl).
  - unfold maxRetries. lia.
  - intros j _. exists Mock.tooManyRequests.
    split; [reflexivity|]. split; [reflexivity | left; reflexivity].
Defined.

Lemma json_body_or_empty_object_witness :
  (Response.json Mock.falseBody = Normal (JBool false)
   /\ processBody Mock.falseBody = Normal (JObject []))
  /\ (Headers.get (Response.headers Fixture.nbspJson) "content-type"
      = Some Fixture.nbsp_type
      /\ processBody Fixture.nbspJson
         = Normal (JObject [("message"%string, JString "msg")])).
Proof.
  split; (split; [reflexivity|]).
  - exact (proj1 (json_body_or_empty_object Mock.falseBody "application/json"
                    (JBool false) eq_refl eq_refl eq_refl)).
  - exact (proj1 (json_body_or_empty_object Fixture.nbspJson Fixture.nbsp_type
                    (JObject [("message"%string, JString "msg")])
                    eq_refl eq_refl eq_refl)).
Defined.

(** Both halves of the statement "a JSON body that is not empty is returned
    as parsed, an empty one gives the empty object" fail.  The body [false]
    is not empty and is JSON, and is not returned as parsed: the result is
    the empty object.  The body without a byte is empty, and the result is
    not the empty object: [response.json()] rejects on it and so does
    [processBody], before [|| {}] can apply. *)
Lemma false_body_replaced_and_empty_body_rejected :
  (Response.ok Mock.falseBody = true
   /\ Headers.get (Response.headers Mock.falseBody) "content-type"
      = Some "application/json"%string
   /\ Response.text Mock.falseBody = Normal "false"%string
   /\ Response.json Mock.falseBody = Normal (JBool false)
   /\ processBody Mock.falseBody = Normal (JObject [])
   /\ processBody Mock.falseBody <> Normal (JBool false))
  /\ (Response.ok Fixture.emptyJson = true
      /\ Headers.get (Response.headers Fixture.emptyJson) "content-type"
         = Some "application/json"%string
      /\ Response.text Fixture.emptyJson = Normal EmptyString
      /\ Response.json Fixture.emptyJson = Throw Mock.SyntaxError
      /\ processBody Fixture.emptyJson = Throw Mock.SyntaxError
      /\ processBody Fixture.emptyJson <> Normal (JObject [])).
Proof. repeat split; discriminate. Qed.

Lemma no_content_gives_null_body_witness :
  Response.status Mock.noContent = 204
  /\ parseResponse Mock.noContent false =
       Normal {| body := JNull;
                 headers := {["content-type"%string := "application/json"%string]};
                 status := 204 |}
  /\ exists result t,
      defaultRequestHandler Mock.JSON_parse Mock.JSON_stringify URL.parse
        (Mock.always Mock.noContent) "testurl/123" (Some Mock.options) [] =
        (Normal result, t)
      /\ body result = JNull /\ fetch_count t = 1%nat.
Proof.
  pose proof (no_content_gives_null_body Mock.JSON_parse Mock.JSON_stringify
                URL.parse (Mock.always Mock.noContent)) as (Hnull & _ & Hcall).
  split; [reflexivity|]. split.
  - exact (Hnull Mock.noContent eq_refl).
  - eapply (Hcall "testurl/123"%string (Some Mock.options)); reflexivity.
Defined.

Lemma mode_same_origin_iff_archive_witness :
  (exists url init rest,
      (defaultRequestHandler Mock.JSON_parse Mock.JSON_stringify URL.parse
         (Mock.always Mock.success) "http://test.com/repository/archive" None []).2
      = Fetched url init :: rest
      /\ URL.href url = "http://test.com/repository/archive"%string
      /\ init !! "mode" = Some (JString "same-origin"))
  /\ (exists url init rest,
      (defaultRequestHandler Mock.JSON_parse Mock.JSON_stringify URL.parse
         (Mock.always Mock.success) "http://test.com/test/something" None []).2
      = Fetched url init :: rest
      /\ URL.href url = "http://test.com/test/something"%string
      /\ init !! "mode" = Some JUndefined).
Proof.
  split.
  - destruct (proj1 (mode_same_origin_iff_archive Mock.JSON_parse Mock.JSON_stringify
                       URL.parse (Mock.always Mock.success)
                       "http://test.com/repository/archive" None)
                {| URL.protocol := "http:"; URL.authority := Some "test.com"%string;
                   URL.pathname := "/repository/archive"; URL.query := None;
                   URL.fragment := None |} eq_refl)
      as (url & init & rest & Hfirst & Hmode).
    exists url, init, rest. split; [exact Hfirst|]. split; [|exact Hmode].
    vm_compute in Hfirst. injection Hfirst as <- _ _. reflexivity.
  - destruct (proj1 (mode_same_origin_iff_archive Mock.JSON_parse Mock.JSON_stringify
                       URL.parse (Mock.always Mock.success)
                       "http://test.com/test/something" None)
                {| URL.protocol := "http:"; URL.authority := Some "test.com"%string;
                   URL.pathname := "/test/something"; URL.query := None;
                   URL.fragment := None |} eq_refl)
      as (url & init & rest & Hfirst & Hmode).
    exists url, init, rest. split; [exact Hfirst|]. split; [|exact Hmode].
    vm_compute in Hfirst. injection Hfirst as <- _ _. reflexivity.
Defined.

Lemma failed_request_is_normalised_witness :
  exists u init,
    defaultRequestHandler Mock.JSON_parse Mock.JSON_stringify URL.parse
      (Mock.always Mock.notImplemented) "http://test.com" (Some no_options) [] =
      (Throw (NewError "Really Bad Error"
                (Some {| description := Mock.JSON_stringify (JString "msg") 2;
                         response := Mock.notImplemented |})),
       [Fetched u init]).
Proof.
  destruct (failed_request_is_normalised Mock.JSON_parse Mock.JSON_stringify URL.parse
              (Mock.always Mock.notImplemented) "http://test.com" (Some no_options)
              {| URL.protocol := "http:"; URL.authority := Some "test.com"%string;
                 URL.pathname := "/"; URL.query := None; URL.fragment := None |}
              Mock.notImplemented (Mock.object_text "error" "msg") "application/json"
              [("error"%string, JString "msg")])
    as (d & Hrun & _ & _ & Hd).
  - reflexivity.
  - reflexivity.
  - reflexivity.
  - cbn. intros [H|[H|[]]]; discriminate.
  - reflexivity.
  - reflexivity.
  - reflexivity.
  - reflexivity.
  - eexists _, _. rewrite Hrun, (Hd eq_refl). reflexivity.
Defined.

Lemma transport_failure_ends_the_call_witness :
  exists t,
    defaultRequestHandler Mock.JSON_parse Mock.JSON_stringify URL.parse Mock.timing_out
      "testurl/123" (Some Mock.options) [] =
      (Throw (NewError "Query timeout was reached" None), t)
    /\ fetch_count t = 2%nat.
Proof.
  destruct (transport_failure_ends_the_call Mock.JSON_parse Mock.JSON_stringify URL.parse
              Mock.timing_out "testurl/123" (Some Mock.options)
              {| URL.protocol := "http:"; URL.authority := Some "test.com"%string;
                 URL.pathname := "/projects/testurl/123"; URL.query := None;
                 URL.fragment := None |}
              1 {| name := "TimeoutError"; message := "The operation timed out" |})
    as (err & t & Hrun & Hcount & Htimeout & _).
  - reflexivity.
  - unfold maxRetries. lia.
  - intros j Hj. exists Mock.tooManyRequests. destruct j as [|j]; [|lia].
    split; [reflexivity|]. split; [reflexivity | left; reflexivity].
  - reflexivity.
  - exists t. rewrite Hrun, Htimeout by (left; reflexivity). split; [reflexivity | exact Hcount].
Defined.

Lemma empty_search_params_drop_query_witness :
  (exists url init rest,
      (defaultRequestHandler Mock.JSON_parse Mock.JSON_stringify URL.parse
         (Mock.always Mock.success) "projects?page=2" (Some Mock.bare_options) []).2
      = Fetched url init :: rest)
  /\ forall url init,
      In (Fetched url init)
        (defaultRequestHandler Mock.JSON_parse Mock.JSON_stringify URL.parse
           (Mock.always Mock.success) "projects?page=2" (Some Mock.bare_options) []).2 ->
      URL.query url = None /\ URL.search url = EmptyString
      /\ URL.href url = "http://test.com/api/projects"%string.
Proof.
  destruct (empty_search_params_drop_query Mock.JSON_parse Mock.JSON_stringify URL.parse
              (Mock.always Mock.success) "projects?page=2" (Some Mock.bare_options)
              {| URL.protocol := "http:"; URL.authority := Some "test.com"%string;
                 URL.pathname := "/api/projects"; URL.query := Some "page=2"%string;
                 URL.fragment := None |})
    as (Hfirst & Hall).
  - left. reflexivity.
  - reflexivity.
  - split; [exact Hfirst|].
    intros url init Hin. destruct (Hall url init Hin) as (-> & Hq & Hs).
    repeat split.
Defined.

(** ** The test suite of the package, replayed on the model *)

Section Replay.

Let run (endpoint : string) (options : option RequestOptions) :=
  defaultRequestHandler Mock.JSON_parse Mock.JSON_stringify URL.parse
    (Mock.always Mock.success) endpoint options [].

Let with_prefix (prefix : string) (search : option string) : option RequestOptions :=
  Some {| prefixUrl := Some prefix; asStream := None; searchParams := search; others := ∅ |}.

(** should return correct properties if request is valid *)
Example replay_valid_request :
  (run "http://test.com" (Some no_options)).1 =
  Normal {| body := JObject [];
            headers := {["content-type"%string := "application/json"%string]};
            status := 200 |}.
Proof. reflexivity. Qed.

(** should handle a prefix url correctly *)
Example replay_prefix_url :
  requested (run "testurl" (with_prefix "http://test.com" None)).2
  = ["http://test.com/testurl"%string].
Proof. reflexivity. Qed.

(** should handle a searchParams correctly *)
Example replay_search_params :
  requested (run "testurl/123" (with_prefix "http://test.com" (Some "test=4"%string))).2
  = ["http://test.com/testurl/123?test=4"%string].
Proof. reflexivity. Qed.

(** should add same-origin mode for repository/archive endpoint *)
Example replay_archive_mode :
  exists url,
    (run "http://test.com/repository/archive" None).2
    = [Fetched url {["mode"%string := JString "same-origin"]}]
    /\ URL.href url = "http://test.com/repository/archive"%string.
Proof. eexists. split; reflexivity. Qed.

(** should use default mode (cors) for non-repository/archive endpoints *)
Example replay_default_mode :
  exists url,
    (run "http://test.com/test/something" None).2
    = [Fetched url {["mode"%string := JUndefined]}]
    /\ URL.href url = "http://test.com/test/something"%string.
Proof. eexists. split; reflexivity. Qed.

(** should handle multipart prefixUrls correctly *)
Example replay_multipart_prefix :
  requested (run "testurl/123" (with_prefix "http://test.com/projects" (Some "test=4"%string))).2
  = ["http://test.com/projects/testurl/123?test=4"%string]
  /\ requested (run "123/testurl" (with_prefix "http://test.com/projects" (Some "test=4"%string))).2
     = ["http://test.com/projects/123/testurl?test=4"%string]
  /\ requested (run "123/testurl" (with_prefix "http://test.com/projects/" (Some "test=4"%string))).2
     = ["http://test.com/projects/123/testurl?test=4"%string].
Proof. repeat split. Qed.

Let resolve_options (url : string) (rejectUnauthorized : option bool) :=
  defaultOptionsHandler "undefined" (Normal tt) unit tt (fun _ _ => Normal no_options)
    {| url := url; rejectUnauthorized := rejectUnauthorized; resource_others := ∅ |}
    (Some tt).

(** should not assign the agent property if given https url and not
    rejectUnauthorized; ... if given http url and rejectUnauthorized; should
    assign the agent property if given https url and rejectUnauthorized is
    false *)
Example replay_agent :
  resolve_options "https://test.com" (Some true) = Normal no_options
  /\ resolve_options "http://test.com" (Some true) = Normal no_options
  /\ resolve_options "https://test.com" (Some false)
     = Normal (set_agent no_options (JAgent {| agent_rejectUnauthorized := false |}))
  /\ resolve_options "https://test.com" None = Normal no_options.
Proof. repeat split. Qed.

End Replay.

(** ** Further properties of the retry loop *)

Section Loop.

Variable JSON_parse : string -> Completion Exception JSValue.
Variable JSON_stringify : JSValue -> nat -> option string.
Variable URL_new : string -> option string -> Completion Exception URL.t.
Variable network : nat -> Completion Exception Response.t.

Local Abbreviation attempts := (attempts JSON_parse JSON_stringify network).
Local Abbreviation defaultRequestHandler :=
  (defaultRequestHandler JSON_parse JSON_stringify URL_new network).
Local Abbreviation throwFailedRequestError :=
  (throwFailedRequestError JSON_parse JSON_stringify).

(** [throwFailedRequestError] never returns. *)
Lemma throwFailedRequestError_throws r : exists e, throwFailedRequestError r = Throw e.
Proof using Type.
  unfold Requester.throwFailedRequestError.
  destruct (Response.text r) as [content|e]; cbn; [|eauto].
  destruct (match Headers.get (Response.headers r) "Content-Type" with
            | Some ct => JSString.includes ct "application/json"
            | None => false
            end); cbn; [|eauto].
  destruct (JSON_parse content) as [output|e]; cbn; [|eauto].
  destruct (get_property output "error") as [error|e]; cbn; [|eauto].
  destruct (truthy error); cbn; [eauto|].
  destruct (get_property output "message") as [msg|e]; cbn; eauto.
Qed.

Lemma retries_retried j :
  retries (network j) = true <-> exists r, network j = Normal r /\ retried r.
Proof using Type.
  unfold retries, retried. destruct (network j) as [r|e].
  - rewrite andb_true_iff, negb_true_iff, existsb_exists. split.
    + intros [Hok (c & Hin & Heq)]. apply Z.eqb_eq in Heq. subst c. eauto.
    + intros (r' & Heq & Hok & Hin). inversion Heq; subst r'.
      split; [exact Hok|]. exists (Response.status r). split; [exact Hin | apply Z.eqb_refl].
  - split; [done | intros (r & H & _); discriminate].
Qed.

(** An attempt whose outcome does not send the loop round ends the call with
    nothing but its own fetch added to the trace. *)
Lemma attempts_stop remaining i url init asStream t :
  retries (network (fetch_count t)) = false ->
  exists c, attempts (S remaining) i url init asStream t = (c, t ++ [Fetched url init]).
Proof using Type.
  intros Hstop. unfold retries in Hstop.
  destruct (network (fetch_count t)) as [r|e] eqn:Hnet.
  - destruct (Response.ok r) eqn:Hok.
    + eexists. by apply attempts_ok with (r := r).
    + cbn [negb andb] in Hstop. destruct (throwFailedRequestError_throws r) as (e & He).
      exists (Throw e). apply attempts_failed with (r := r); try done.
      intros Hin. apply not_true_iff_false in Hstop. apply Hstop.
      apply existsb_exists. exists (Response.status r).
      split; [exact Hin | apply Z.eqb_refl].
  - eexists. by apply attempts_rejected.
Qed.

(** The loop stops at the first outcome that does not send it round, or
    after [remaining] attempts. *)
Lemma attempts_shape url init asStream remaining : forall i t,
  exists k,
    (forall j, (j < k)%nat -> retries (network (fetch_count t + j)) = true)
    /\ (((k < remaining)%nat
         /\ retries (network (fetch_count t + k)) = false
         /\ exists c, attempts remaining i url init asStream t =
                        (c, t ++ retry_events url init i k ++ [Fetched url init]))
        \/ (k = remaining
            /\ attempts remaining i url init asStream t =
                 (Throw exhausted, t ++ retry_events url init i k))).
Proof using Type.
  induction remaining as [|remaining IH]; intros i t.
  - exists 0%nat. split; [intros j Hj; lia|]. right. split; [done|].
    cbn. by rewrite app_nil_r.
  - destruct (retries (network (fetch_count t))) eqn:Hfirst.
    + apply retries_retried in Hfirst as (r & Hnet & Hr).
      destruct (IH (S i) (t ++ [Fetched url init; TimerSet (backoff i)]))
        as (k & Hbefore & Hend).
      assert (Hcount : fetch_count (t ++ [Fetched url init; TimerSet (backoff i)])
                       = S (fetch_count t)).
      { rewrite fetch_count_app. cbn. lia. }
      rewrite Hcount in Hbefore, Hend.
      exists (S k). split.
      * intros [|j] Hj.
        -- rewrite Nat.add_0_r. apply retries_retried. eauto.
        -- replace (fetch_count t + S j)%nat with (S (fetch_count t) + j)%nat by lia.
           apply Hbefore. lia.
      * rewrite (attempts_retry _ _ _ _ _ _ _ _ _ r Hnet Hr).
        cbn [retry_events].
        destruct Hend as [(Hk & Hstop & c & Hrun)|(Hk & Hrun)].
        -- left. split; [lia|]. split.
           ++ by replace (fetch_count t + S k)%nat with (S (fetch_count t) + k)%nat by lia.
           ++ exists c. rewrite Hrun. by rewrite <- !app_assoc.
        -- right. split; [lia|]. rewrite Hrun. by rewrite <- !app_assoc.
    + exists 0%nat. split; [intros j Hj; lia|]. left.
      split; [lia|]. rewrite Nat.add_0_r. split; [exact Hfirst|].
      destruct (attempts_stop remaining i url init asStream t Hfirst) as (c & Hrun).
      exists c. by rewrite Hrun.
Qed.

(** X1. Whatever the host answers, a call makes at most [maxRetries] (ten)
    network calls and never sets more timers than it has made network
    calls. *)
Theorem at_most_ten_requests endpoint options :
  (fetch_count (defaultRequestHandler endpoint options []).2 <= maxRetries)%nat
  /\ (length (timers (defaultRequestHandler endpoint options []).2)
      <= fetch_count (defaultRequestHandler endpoint options []).2)%nat.
Proof using Type.
  destruct (URL_new endpoint (baseUrl (prefixUrl (default no_options options))))
    as [u|e] eqn:Hurl.
  - rewrite (handler_enters_loop _ _ _ _ _ _ _ _ Hurl).
    match goal with
    | |- context [Requester.attempts _ _ _ ?n ?i ?url ?init ?a ?t] =>
        destruct (attempts_shape url init a n i t)
          as (k & _ & [(Hk & _ & c & ->)|(Hk & ->)])
    end; cbn [snd app];
      rewrite ?fetch_count_app, ?timers_app, ?length_app,
        fetch_count_retry_events, timers_retry_events, length_map, length_seq;
      cbn; lia.
  - rewrite (handler_trace_no_url _ _ _ _ _ _ _ Hurl). cbn. unfold maxRetries. lia.
Qed.

Lemma handler_after_retries endpoint options u k :
  URL_new endpoint (baseUrl (prefixUrl (default no_options options))) = Normal u ->
  (k <= maxRetries)%nat ->
  (forall j, (j < k)%nat -> retries (network j) = true) ->
  defaultRequestHandler endpoint options [] =
  attempts (maxRetries - k) k
    (URL.set_search u (JSString.or_else (searchParams (default no_options options)) EmptyString))
    (<["mode" := getConditionalMode endpoint]> (others (default no_options options)))
    (default false (asStream (default no_options options)))
    (retry_events
       (URL.set_search u (JSString.or_else (searchParams (default no_options options)) EmptyString))
       (<["mode" := getConditionalMode endpoint]> (others (default no_options options)))
       0 k).
Proof using Type.
  intros Hurl Hk Hretried. rewrite (handler_enters_loop _ _ _ _ _ _ _ _ Hurl).
  replace maxRetries with (k + (maxRetries - k))%nat at 1 by lia.
  rewrite attempts_retries; [done|].
  intros j Hj. apply retries_retried. by apply Hretried.
Qed.

(** X2. A call stops at the first attempt whose outcome is not a retried
    response (a response that is not ok with status 429 or 502), or after
    [maxRetries] attempts: with [k] the number of retried attempts before
    that, the timers set are exactly [backoff 0], ..., [backoff (k - 1)],
    there are [k + 1] network calls when [k < maxRetries], and [maxRetries]
    calls and the exhaustion error otherwise. *)
Theorem call_stops_at_first_final_outcome endpoint options u :
  URL_new endpoint (baseUrl (prefixUrl (default no_options options))) = Normal u ->
  exists k,
    (forall j, (j < k)%nat -> retries (network j) = true)
    /\ timers (defaultRequestHandler endpoint options []).2 = map backoff (seq 0 k)
    /\ (((k < maxRetries)%nat
         /\ retries (network k) = false
         /\ fetch_count (defaultRequestHandler endpoint options []).2 = S k)
        \/ (k = maxRetries
            /\ fetch_count (defaultRequestHandler endpoint options []).2 = maxRetries
            /\ (defaultRequestHandler endpoint options []).1 = Throw exhausted)).
Proof using Type.
  intros Hurl. rewrite (handler_enters_loop _ _ _ _ _ _ _ _ Hurl).
  match goal with
  | |- context [Requester.attempts _ _ _ ?n ?i ?url ?init ?a ?t] =>
      destruct (attempts_shape url init a n i t)
        as (k & Hbefore & [(Hk & Hstop & c & ->)|(Hk & ->)])
  end; exists k; (split; [exact Hbefore|]); cbn [fst snd app].
  - split.
    + rewrite timers_app, timers_retry_events. cbn. by rewrite app_nil_r.
    + left. split; [exact Hk|]. split; [exact Hstop|].
      rewrite fetch_count_app, fetch_count_retry_events. cbn. lia.
  - split; [apply timers_retry_events|].
    right. split; [exact Hk|]. split; [|done].
    rewrite fetch_count_retry_events. exact Hk.
Qed.

(** X3. After any number [k < maxRetries] of retried responses, of either
    retry code, an ok response ends the call with what parsing it gives:
    [k + 1] network calls were made and the timers set were [backoff 0],
    ..., [backoff (k - 1)], none after the last response. *)
Theorem success_after_retries endpoint options u k r :
  URL_new endpoint (baseUrl (prefixUrl (default no_options options))) = Normal u ->
  (k < maxRetries)%nat ->
  (forall j, (j < k)%nat -> retries (network j) = true) ->
  network k = Normal r ->
  Response.ok r = true ->
  exists t,
    defaultRequestHandler endpoint options [] =
      (passing (parseResponse r (default false (asStream (default no_options options)))), t)
    /\ fetch_count t = S k
    /\ timers t = map backoff (seq 0 k).
Proof using Type.
  intros Hurl Hk Hretried Hnet Hok.
  rewrite (handler_after_retries _ _ _ k Hurl) by (lia || done).
  replace (maxRetries - k)%nat with (S (maxRetries - S k)) by lia.
  rewrite (attempts_ok _ _ _ _ _ _ _ _ _ r) by (by rewrite ?fetch_count_retry_events).
  eexists. split; [reflexivity|]. split.
  - rewrite fetch_count_app, fetch_count_retry_events. cbn. lia.
  - rewrite timers_app, timers_retry_events. cbn. by rewrite app_nil_r.
Qed.

(** X4. A response that is not ok and whose status is not a retry code is
    never retried, whatever its body and headers: after [k < maxRetries]
    retried responses it ends the call with the error that
    [throwFailedRequestError] throws for it, after [k + 1] network calls and
    without a further timer. *)
Theorem failure_is_never_retried endpoint options u k r :
  URL_new endpoint (baseUrl (prefixUrl (default no_options options))) = Normal u ->
  (k < maxRetries)%nat ->
  (forall j, (j < k)%nat -> retries (network j) = true) ->
  network k = Normal r ->
  Response.ok r = false ->
  ~ In (Response.status r) retryCodes ->
  exists e t,
    defaultRequestHandler endpoint options [] = (Throw e, t)
    /\ throwFailedRequestError r = Throw e
    /\ fetch_count t = S k
    /\ timers t = map backoff (seq 0 k).
Proof using Type.
  intros Hurl Hk Hretried Hnet Hok Hcode.
  destruct (throwFailedRequestError_throws r) as (e & He).
  rewrite (handler_after_retries _ _ _ k Hurl) by (lia || done).
  replace (maxRetries - k)%nat with (S (maxRetries - S k)) by lia.
  rewrite (attempts_failed _ _ _ _ _ _ _ _ _ r e)
    by (by rewrite ?fetch_count_retry_events).
  eexists _, _. split; [reflexivity|]. split; [exact He|]. split.
  - rewrite fetch_count_app, fetch_count_retry_events. cbn. lia.
  - rewrite timers_app, timers_retry_events. cbn. by rewrite app_nil_r.
Qed.

Lemma total_app (l l' : list Q) : (total (l ++ l') == total l + total l')%Q.
Proof using Type.
  induction l as [|x l IH].
  - change (total l' == 0 + total l')%Q. ring.
  - change (x + total (l ++ l') == x + total l + total l')%Q. rewrite IH. ring.
Qed.

Lemma backoff_succ i : (backoff (S i) == 2 * backoff i)%Q.
Proof using Type.
  unfold backoff. rewrite Nat2Z.inj_succ, <- Z.add_1_r.
  rewrite Qpower_plus by discriminate. change (2 ^ 1)%Q with 2%Q. ring.
Qed.

Lemma total_backoff k :
  (total (map backoff (seq 0 k)) == backoff k - 0.1)%Q.
Proof using Type.
  induction k as [|k IH]; [reflexivity|].
  rewrite seq_S, map_app, total_app, IH, backoff_succ.
  change (total (map backoff [(0 + k)%nat])) with (backoff k + 0)%Q. ring.
Qed.

(** X5. When all [maxRetries] attempts are answered with retried responses,
    of either retry code, the call fails with the exhaustion error after ten
    network calls and ten timers: it still waits [backoff 9] after the last
    attempt, and has waited 102.3 milliseconds in all. *)
Theorem exhaustion_waits_after_last_attempt endpoint options u :
  URL_new endpoint (baseUrl (prefixUrl (default no_options options))) = Normal u ->
  (forall j, (j < maxRetries)%nat -> retries (network j) = true) ->
  exists t,
    defaultRequestHandler endpoint options [] = (Throw exhausted, t)
    /\ fetch_count t = 10%nat
    /\ timers t = map backoff (seq 0 10)
    /\ last t = Some (TimerSet (backoff 9))
    /\ (total (timers t) == 102.3)%Q.
Proof using Type.
  intros Hurl Hretried.
  rewrite (handler_after_retries _ _ _ maxRetries Hurl) by (lia || done).
  rewrite Nat.sub_diag. cbn [Requester.attempts]. unfold throw.
  eexists. split; [reflexivity|].
  split; [apply fetch_count_retry_events|].
  split; [apply timers_retry_events|].
  split; [reflexivity|].
  rewrite timers_retry_events, total_backoff. reflexivity.
Qed.

(** X6. The delays double from one attempt to the next, and the delays of
    the first [k] retried attempts add up to a tenth of a millisecond times
    [2 ^ k - 1]. *)
Theorem backoff_doubles_and_sums :
  (forall i, (backoff (S i) == 2 * backoff i)%Q)
  /\ (forall k, (total (map backoff (seq 0 k)) == (2 ^ Z.of_nat k - 1) * 0.1)%Q).
Proof using Type.
  split; [exact backoff_succ|].
  intros k. rewrite total_backoff. unfold backoff. ring.
Qed.

(** *** Error normalisation *)

Lemma handler_first_failure endpoint options u r e :
  URL_new endpoint (baseUrl (prefixUrl (default no_options options))) = Normal u ->
  network 0 = Normal r ->
  Response.ok r = false ->
  ~ In (Response.status r) retryCodes ->
  throwFailedRequestError r = Throw e ->
  defaultRequestHandler endpoint options [] =
    (Throw e,
     [Fetched
        (URL.set_search u
           (JSString.or_else (searchParams (default no_options options)) EmptyString))
        (<["mode" := getConditionalMode endpoint]> (others (default no_options options)))]).
Proof using Type.
  intros Hurl Hnet Hok Hcode He. rewrite (handler_enters_loop _ _ _ _ _ _ _ _ Hurl).
  change maxRetries with (S 9). by apply attempts_failed with (r := r).
Qed.

(** X7. When the failed response has no content type, or one that does not
    contain [application/json], the description of the error is the text of
    the body as it is, beside the status text as message and the response
    itself; the body is not parsed. *)
Theorem error_description_is_raw_text endpoint options u r content :
  URL_new endpoint (baseUrl (prefixUrl (default no_options options))) = Normal u ->
  network 0 = Normal r ->
  Response.ok r = false ->
  ~ In (Response.status r) retryCodes ->
  Response.text r = Normal content ->
  (forall ct, Headers.get (Response.headers r) "Content-Type" = Some ct ->
              JSString.includes ct "application/json" = false) ->
  defaultRequestHandler endpoint options [] =
    (Throw (NewError (Response.statusText r)
              (Some {| description := Some content; response := r |})),
     [Fetched
        (URL.set_search u
           (JSString.or_else (searchParams (default no_options options)) EmptyString))
        (<["mode" := getConditionalMode endpoint]> (others (default no_options options)))]).
Proof using Type.
  intros Hurl Hnet Hok Hcode Htext Hct.
  apply handler_first_failure with (r := r); try done.
  unfold Requester.throwFailedRequestError. rewrite Htext. cbn.
  destruct (Headers.get (Response.headers r) "Content-Type") as [ct|]; [|done].
  by rewrite (Hct ct eq_refl).
Qed.

(** X8. When the failed response has a JSON content type and its body is not
    JSON, the exception of [JSON.parse] is what the call throws, in place of
    the normalised error; when the body is the JSON text [null], the call
    throws a TypeError.  In both cases one network call was made. *)
Theorem malformed_error_body_propagates endpoint options u r content ct :
  URL_new endpoint (baseUrl (prefixUrl (default no_options options))) = Normal u ->
  network 0 = Normal r ->
  Response.ok r = false ->
  ~ In (Response.status r) retryCodes ->
  Response.text r = Normal content ->
  Headers.get (Response.headers r) "Content-Type" = Some ct ->
  JSString.includes ct "application/json" = true ->
  (forall e, JSON_parse content = Throw e ->
     exists t, defaultRequestHandler endpoint options [] = (Throw (Native e), t)
               /\ fetch_count t = 1%nat /\ timers t = [])
  /\ (JSON_parse content = Normal JNull ->
      exists e t, defaultRequestHandler endpoint options [] = (Throw (Native e), t)
                  /\ name e = "TypeError"%string
                  /\ fetch_count t = 1%nat /\ timers t = []).
Proof using Type.
  intros Hurl Hnet Hok Hcode Htext Hct Hjson. split.
  - intros e Hparse. eexists. split.
    + apply handler_first_failure with (r := r); try done.
      unfold Requester.throwFailedRequestError. rewrite Htext, Hct, Hjson. cbn.
      by rewrite Hparse.
    + split; reflexivity.
  - intros Hparse. eexists _, _. split.
    + apply handler_first_failure with (r := r); try done.
      unfold Requester.throwFailedRequestError. rewrite Htext, Hct, Hjson. cbn.
      by rewrite Hparse.
    + repeat split.
Qed.

(** X9. An [error] property that is present but falsy (null, false, zero or
    the empty string) is passed over: the description is the stringified
    [message] property, or the stringified undefined when there is no
    [message]. *)
Theorem falsy_error_falls_back_to_message endpoint options u r content ct props e :
  URL_new endpoint (baseUrl (prefixUrl (default no_options options))) = Normal u ->
  network 0 = Normal r ->
  Response.ok r = false ->
  ~ In (Response.status r) retryCodes ->
  Response.text r = Normal content ->
  Headers.get (Response.headers r) "Content-Type" = Some ct ->
  JSString.includes ct "application/json" = true ->
  JSON_parse content = Normal (JObject props) ->
  own_property "error" props = Some e ->
  truthy e = false ->
  exists t,
    defaultRequestHandler endpoint options [] =
      (Throw (NewError (Response.statusText r)
                (Some {| description :=
                           JSON_stringify
                             (default JUndefined (own_property "message" props)) 2;
                         response := r |})), t)
    /\ fetch_count t = 1%nat.
Proof using Type.
  intros Hurl Hnet Hok Hcode Htext Hct Hjson Hparse Herror Hfalsy.
  eexists. split.
  - apply handler_first_failure with (r := r); try done.
    unfold Requester.throwFailedRequestError. rewrite Htext, Hct, Hjson. cbn.
    rewrite Hparse. cbn [mbind Completion_bind get_property]. rewrite Herror.
    cbn [default from_option id]. by rewrite Hfalsy.
  - reflexivity.
Qed.

(** *** The request URL and the options of [fetch] *)

Lemma endsWith_app (a b : string) : JSString.endsWith (a ++ b) b = true.
Proof using Type.
  induction a as [|c a IH].
  - change (JSString.endsWith b b = true).
    destruct b; cbn [JSString.endsWith]; by rewrite String.eqb_refl.
  - change (JSString.endsWith (String c (a ++ b)) b = true).
    cbn [JSString.endsWith]. rewrite IH. apply orb_true_r.
Qed.

(** X10. When the URL cannot be built the call fails with the exception of
    the URL constructor and nothing is requested and no timer is set; and an
    empty [prefixUrl] counts as none. *)
Theorem invalid_url_makes_no_request endpoint :
  (forall options e,
      URL_new endpoint (baseUrl (prefixUrl (default no_options options))) = Throw e ->
      defaultRequestHandler endpoint options [] = (Throw (Native e), []))
  /\ (forall o t,
      defaultRequestHandler endpoint (Some (with_prefixUrl o (Some EmptyString))) t
      = defaultRequestHandler endpoint (Some (with_prefixUrl o None)) t).
Proof using Type.
  split.
  - intros options e Hurl. by apply handler_trace_no_url.
  - reflexivity.
Qed.

(** X11. For every prefix that is not empty and does not end with a slash,
    the call with the prefix and the call with the prefix followed by a
    slash are the same call: the base handed to the URL constructor is the
    prefix followed by a slash in both. *)
Theorem trailing_slash_of_prefix_is_immaterial endpoint o p t :
  JSString.truthy p = true ->
  JSString.endsWith p "/" = false ->
  baseUrl (Some p) = Some (p ++ "/")%string
  /\ defaultRequestHandler endpoint (Some (with_prefixUrl o (Some p))) t
     = defaultRequestHandler endpoint (Some (with_prefixUrl o (Some (p ++ "/")%string))) t.
Proof using Type.
  intros Hp Hslash.
  assert (H1 : baseUrl (Some p) = Some (p ++ "/")%string).
  { unfold baseUrl. by rewrite Hp, Hslash. }
  assert (H2 : baseUrl (Some (p ++ "/")%string) = Some (p ++ "/")%string).
  { unfold baseUrl. rewrite endsWith_app. by destruct p. }
  split; [exact H1|].
  unfold Requester.defaultRequestHandler.
  cbn [default from_option id with_prefixUrl prefixUrl asStream searchParams others].
  by rewrite H1, H2.
Qed.

(** X12. The base handed to the URL constructor, when there is one, ends
    with a slash, and computing it again from itself changes nothing. *)
Theorem base_url_ends_with_slash p b :
  baseUrl p = Some b ->
  JSString.endsWith b "/" = true /\ baseUrl (Some b) = Some b.
Proof using Type.
  unfold baseUrl. destruct p as [p|]; [|discriminate].
  destruct (JSString.truthy p) eqn:Hp; [|discriminate].
  destruct (JSString.endsWith p "/") eqn:Hslash; intros [= <-].
  - by rewrite Hp, Hslash.
  - rewrite endsWith_app. split; [done|]. by destruct p.
Qed.

(** X13. Every other option is handed to [fetch] as it was given: the options
    of each request agree with the caller's on every key but [mode]. *)
Theorem options_pass_through endpoint options url init key :
  In (Fetched url init) (defaultRequestHandler endpoint options []).2 ->
  key <> "mode"%string ->
  init !! key = others (default no_options options) !! key.
Proof using Type.
  intros Hin Hkey.
  destruct (URL_new endpoint (baseUrl (prefixUrl (default no_options options))))
    as [u|e] eqn:Hurl.
  - destruct (handler_trace JSON_parse JSON_stringify URL_new network _ _ _ Hurl)
      as [Honly _].
    destruct (Honly _ _ Hin) as [_ ->]. by rewrite lookup_insert_ne.
  - rewrite (handler_trace_no_url JSON_parse JSON_stringify URL_new network _ _ _ Hurl)
      in Hin.
    destruct Hin.
Qed.

(** X14. Search parameters that are not empty replace whatever query the
    resolved URL had: every request goes to the resolved URL with its
    [search] set to them, whose query does not depend on the query of the
    resolved URL.  One question mark in front of them changes nothing. *)
Theorem search_params_replace_query endpoint o u c rest :
  URL_new endpoint (baseUrl (prefixUrl o)) = Normal u ->
  c <> "?"%char ->
  (forall url init,
      In (Fetched url init)
        (defaultRequestHandler endpoint
           (Some (with_searchParams o (Some (String c rest)))) []).2 ->
      url = URL.set_search u (String c rest)
      /\ URL.query url = Some (URL.encode_query (URL.is_special u) (String c rest))
      /\ URL.pathname url = URL.pathname u /\ URL.fragment url = URL.fragment u)
  /\ forall t,
      defaultRequestHandler endpoint
        (Some (with_searchParams o (Some (String "?" (String c rest))))) t
      = defaultRequestHandler endpoint
          (Some (with_searchParams o (Some (String c rest)))) t.
Proof using Type.
  intros Hurl Hc. split.
  - intros url init Hin.
    destruct (handler_trace JSON_parse JSON_stringify URL_new network endpoint
                (Some (with_searchParams o (Some (String c rest)))) u Hurl)
      as [Honly _].
    destruct (Honly _ _ Hin) as [-> _].
    cbn [default from_option id with_searchParams searchParams
           JSString.or_else JSString.truthy].
    split; [done|]. unfold URL.set_search.
    apply Ascii.eqb_neq in Hc. by rewrite Hc.
  - intros t.
    rewrite (handler_enters_loop JSON_parse JSON_stringify URL_new network endpoint
               (Some (with_searchParams o (Some (String "?" (String c rest))))) u t Hurl).
    rewrite (handler_enters_loop JSON_parse JSON_stringify URL_new network endpoint
               (Some (with_searchParams o (Some (String c rest)))) u t Hurl).
    cbn [default from_option id with_searchParams prefixUrl asStream searchParams
           others JSString.or_else JSString.truthy].
    unfold URL.set_search. apply Ascii.eqb_neq in Hc. by rewrite Hc.
Qed.

End Loop.

(** ** Further properties of body decoding *)

Lemma append_cons (c : ascii) (a b : string) : (String c a ++ b)%string = String c (a ++ b)%string.
Proof. reflexivity. Qed.

Lemma append_empty_l (b : string) : (EmptyString ++ b)%string = b.
Proof. reflexivity. Qed.

Lemma append_empty_r (a : string) : (a ++ EmptyString)%string = a.
Proof. induction a as [|c a IH]; [reflexivity|]. by rewrite append_cons, IH. Qed.

Lemma space_is_not_semicolon c : JSString.is_space c = true -> Ascii.eqb c ";" = false.
Proof.
  intros Hc. destruct (Ascii.eqb_spec c ";") as [->|]; [discriminate | reflexivity].
Qed.

Lemma split_first_spaces ws x :
  URL.all_chars JSString.is_space ws = true ->
  JSString.split_first ";" (ws ++ x) = (ws ++ JSString.split_first ";" x)%string.
Proof.
  induction ws as [|c ws IH]; intros Hws; [reflexivity|].
  cbn [URL.all_chars] in Hws. apply andb_true_iff in Hws as [Hc Hws].
  rewrite !append_cons. cbn [JSString.split_first].
  by rewrite (space_is_not_semicolon c Hc), IH.
Qed.

Lemma trimStart_spaces ws x :
  URL.all_chars JSString.is_space ws = true ->
  JSString.trimStart (ws ++ x) = JSString.trimStart x.
Proof.
  induction ws as [|c ws IH]; intros Hws; [reflexivity|].
  cbn [URL.all_chars] in Hws. apply andb_true_iff in Hws as [Hc Hws].
  rewrite append_cons. cbn [JSString.trimStart]. by rewrite Hc, IH.
Qed.

Lemma trimEnd_spaces ws :
  URL.all_chars JSString.is_space ws = true -> JSString.trimEnd ws = EmptyString.
Proof.
  induction ws as [|c ws IH]; intros Hws; [reflexivity|].
  cbn [URL.all_chars] in Hws. apply andb_true_iff in Hws as [Hc Hws].
  cbn [JSString.trimEnd]. by rewrite IH, Hc.
Qed.

(** The JSON content type is recognised with white space around it and with
    any parameters after it. *)
Lemma json_type_is_stripped ws1 ws2 tail :
  URL.all_chars JSString.is_space ws1 = true ->
  URL.all_chars JSString.is_space ws2 = true ->
  tail = EmptyString \/ (exists params, tail = String ";" params) ->
  JSString.trim
    (JSString.split_first ";" (ws1 ++ "application/json" ++ ws2 ++ tail))
  = "application/json"%string.
Proof.
  intros H1 H2 Htail. unfold JSString.trim.
  rewrite split_first_spaces, trimStart_spaces by exact H1.
  rewrite !append_cons, append_empty_l. cbn [JSString.split_first Ascii.eqb Bool.eqb].
  rewrite split_first_spaces by exact H2.
  assert (Hcut : JSString.split_first ";" tail = EmptyString).
  { destruct Htail as [->|(params & ->)]; reflexivity. }
  rewrite Hcut, append_empty_r.
  cbn [JSString.trimStart JSString.is_space Ascii.is_space JSString.trimEnd
         orb andb Ascii.eqb Bool.eqb].
  by rewrite (trimEnd_spaces ws2 H2).
Qed.

(** A rejection of [response.json()], as on a body that is empty or is not
    JSON, is the rejection of [processBody]: the empty object stands in for
    falsy values only.  The text branch differs: there an empty body gives
    the empty string. *)
Lemma json_rejection_is_thrown r ct e :
  Headers.get (Response.headers r) "content-type" = Some ct ->
  JSString.trim (JSString.split_first ";" ct) = "application/json"%string ->
  Response.json r = Throw e ->
  processBody r = Throw e.
Proof.
  intros Hct Htype Hjson. unfold processBody. rewrite Hct, Hjson.
  destruct ct as [|c ct]; [discriminate|].
  cbn [JSString.or_else JSString.truthy]. by rewrite Htype.
Qed.

(** X15. A content type with white space around [application/json] and any
    parameters after a semicolon (a charset, a boundary, ...) is decoded as
    JSON, like the bare content type. *)
Theorem json_with_parameters_is_json r ws1 ws2 tail v :
  URL.all_chars JSString.is_space ws1 = true ->
  URL.all_chars JSString.is_space ws2 = true ->
  tail = EmptyString \/ (exists params, tail = String ";" params) ->
  Headers.get (Response.headers r) "content-type"
    = Some (ws1 ++ "application/json" ++ ws2 ++ tail)%string ->
  Response.json r = Normal v ->
  processBody r = Normal (js_or v (JObject [])).
Proof.
  intros H1 H2 Htail Hct Hjson. unfold processBody. rewrite Hct, Hjson.
  assert (Hsome : JSString.or_else
                    (Some (ws1 ++ "application/json" ++ ws2 ++ tail)%string) EmptyString
                  = (ws1 ++ "application/json" ++ ws2 ++ tail)%string).
  { unfold JSString.or_else.
    by destruct (ws1 ++ "application/json" ++ ws2 ++ tail)%string. }
  by rewrite Hsome, (json_type_is_stripped ws1 ws2 tail H1 H2 Htail).
Qed.

(** X16. A response whose content type, cut at the first semicolon and
    trimmed, starts with [text/] is decoded to its text as it is, the empty
    text included, and a failure to read the text is the failure of
    [processBody]. *)
Theorem text_body_is_returned_verbatim r ct :
  Headers.get (Response.headers r) "content-type" = Some ct ->
  JSString.startsWith (JSString.trim (JSString.split_first ";" ct)) "text/" = true ->
  processBody r = match Response.text r with
                  | Normal t => Normal (JString t)
                  | Throw e => Throw e
                  end.
Proof.
  intros Hct Htext. unfold processBody. rewrite Hct.
  destruct ct as [|c ct]; [discriminate|].
  cbn [JSString.or_else JSString.truthy]. rewrite Htext.
  destruct (String.eqb_spec (JSString.trim (JSString.split_first ";" (String c ct)))
              "application/json") as [Heq|_].
  - rewrite Heq in Htext. discriminate.
  - destruct (Response.text r) as [[|c' t]|e]; reflexivity.
Qed.

(** X17. A response without a content type, or with an empty one, is decoded
    to a blob, and a failure to read the blob is the failure of
    [processBody]. *)
Theorem missing_content_type_gives_blob r :
  Headers.get (Response.headers r) "content-type" = None
  \/ Headers.get (Response.headers r) "content-type" = Some EmptyString ->
  processBody r = match Response.blob r with
                  | Normal b => Normal (JBlob b)
                  | Throw e => Throw e
                  end.
Proof.
  intros [Hct|Hct]; unfold processBody; rewrite Hct;
    by destruct (Response.blob r).
Qed.

Lemma processBody_never_null r v :
  processBody r = Normal v -> v <> JNull /\ v <> JUndefined.
Proof.
  unfold processBody.
  destruct (String.eqb _ "application/json").
  - destruct (Response.json r) as [w|e]; [|discriminate].
    cbn. unfold js_or. destruct (truthy w) eqn:Hw; intros [= <-]; [|done].
    by destruct w.
  - destruct (JSString.startsWith _ "text/").
    + destruct (Response.text r); [|discriminate]. by intros [= <-].
    + destruct (Response.blob r); [|discriminate]. by intros [= <-].
Qed.

(** X18. Without streaming, the body of a parsed response is null exactly
    when the status is 204: decoding never gives null.  The status of the
    result is the status of the response. *)
Theorem null_body_only_for_no_content r result :
  parseResponse r false = Normal result ->
  (body result = JNull <-> Response.status r = 204)
  /\ status result = Response.status r.
Proof.
  unfold parseResponse. destruct (Response.status r =? 204) eqn:Hs.
  - apply Z.eqb_eq in Hs. intros [= <-]. cbn. by rewrite Hs.
  - apply Z.eqb_neq in Hs. destruct (processBody r) as [v|e] eqn:Hbody; [|discriminate].
    intros [= <-]. cbn. split; [|done].
    destruct (processBody_never_null r v Hbody) as [Hnull _]. split; done.
Qed.

Lemma fromEntries_other (es : list (string * string)) (m : gmap string string) k :
  ~ In k (map fst es) ->
  fold_left (fun m e => <[e.1 := e.2]> m) es m !! k = m !! k.
Proof.
  revert m. induction es as [|[k' v'] es IH]; intros m Hk; [done|].
  cbn in Hk. cbn [fold_left]. rewrite IH by tauto.
  apply lookup_insert_ne. cbn. tauto.
Qed.

(** X19. The headers of a parsed response, with or without streaming, hold
    for each name the value of its last entry, and nothing for a name that
    has no entry. *)
Theorem parsed_headers_keep_last_entry r stream result :
  parseResponse r stream = Normal result ->
  (forall k, ~ In k (map fst (Headers.entries (Response.headers r))) ->
             headers result !! k = None)
  /\ (forall es1 k v es2,
         Headers.entries (Response.headers r) = es1 ++ (k, v) :: es2 ->
         ~ In k (map fst es2) ->
         headers result !! k = Some v).
Proof.
  intros Hparse.
  assert (Hh : headers result = Object_fromEntries (Headers.entries (Response.headers r))).
  { unfold parseResponse in Hparse.
    destruct stream; [by injection Hparse as <-|].
    destruct (Response.status r =? 204); [by injection Hparse as <-|].
    destruct (processBody r); [by injection Hparse as <-|discriminate]. }
  rewrite Hh. unfold Object_fromEntries. split.
  - intros k Hk. by rewrite fromEntries_other.
  - intros es1 k v es2 -> Hk. rewrite fold_left_app. cbn [fold_left].
    rewrite fromEntries_other by exact Hk. apply lookup_insert_eq.
Qed.

(** ** Further properties of the options handler *)

Section OptionsFurther.

Variable typeof_window : string.
Variable import_https : Completion Exception unit.
Variable DefaultRequestOptions : Type.
Variable empty_request_options : DefaultRequestOptions.
Variable baseOptionsHandler :
  DefaultResourceOptions -> DefaultRequestOptions -> Completion JSError RequestOptions.

Local Abbreviation defaultOptionsHandler :=
  (defaultOptionsHandler typeof_window import_https DefaultRequestOptions
     empty_request_options baseOptionsHandler).

(** X20. In a browser ([window] is an object), when [rejectUnauthorized] is
    true, null or undefined, or when the URL text does not contain [https],
    the handler returns what the base handler resolved, unchanged, and does
    not depend on whether [https] can be imported. *)
Theorem options_unchanged_without_bypass resourceOptions requestOptions options :
  baseOptionsHandler resourceOptions (default empty_request_options requestOptions)
    = Normal options ->
  typeof_window = "object"%string
  \/ rejectUnauthorized resourceOptions <> Some false
  \/ JSString.includes (url resourceOptions) "https" = false ->
  defaultOptionsHandler resourceOptions requestOptions = Normal options.
Proof using Type.
  intros Hbase Hcase. unfold Requester.defaultOptionsHandler. rewrite Hbase. cbn.
  destruct (JSString.includes (url resourceOptions) "https") eqn:Hurl; [|done].
  destruct (rejectUnauthorized resourceOptions) as [[]|] eqn:Hr; cbn; try done.
  destruct Hcase as [->|[Hcase|Hcase]]; [done|done|discriminate].
Qed.

(** X21. Outside a browser, for a URL text that contains [https] and
    [rejectUnauthorized] false, a failure to import [https] is the failure
    of the handler: the setting is not ignored and no options are returned. *)
Theorem import_failure_is_not_ignored resourceOptions requestOptions options e :
  baseOptionsHandler resourceOptions (default empty_request_options requestOptions)
    = Normal options ->
  JSString.includes (url resourceOptions) "https" = true ->
  rejectUnauthorized resourceOptions = Some false ->
  typeof_window <> "object"%string ->
  import_https = Throw e ->
  defaultOptionsHandler resourceOptions requestOptions = Throw (Native e).
Proof using Type.
  intros Hbase Hurl Hr Hwindow Himport.
  unfold Requester.defaultOptionsHandler. rewrite Hbase, Hurl, Hr, Himport. cbn.
  apply String.eqb_neq in Hwindow. by rewrite Hwindow.
Qed.

(** X22. When the base handler and the import succeed, the result differs
    from what the base handler resolved at most in its [agent]: the prefix,
    the streaming flag, the search parameters and every other key are kept;
    and the result holds the agent that skips verification if and only if the
    three conditions hold or the base handler had already put it there. *)
Theorem agent_is_the_only_change resourceOptions requestOptions options :
  baseOptionsHandler resourceOptions (default empty_request_options requestOptions)
    = Normal options ->
  import_https = Normal tt ->
  exists result,
    defaultOptionsHandler resourceOptions requestOptions = Normal result
    /\ prefixUrl result = prefixUrl options
    /\ asStream result = asStream options
    /\ searchParams result = searchParams options
    /\ (forall key, key <> "agent"%string -> others result !! key = others options !! key)
    /\ (others result !! "agent" = Some bypass <->
        (JSString.includes (url resourceOptions) "https" = true
         /\ rejectUnauthorized resourceOptions = Some false
         /\ typeof_window <> "object"%string)
        \/ others options !! "agent" = Some bypass).
Proof using Type.
  intros Hbase Himport.
  rewrite (defaultOptionsHandler_agent _ _ _ _ _ _ _ _ Hbase Himport).
  eexists. split; [reflexivity|].
  destruct (JSString.includes (url resourceOptions) "https") eqn:Hurl;
    case_bool_decide as Hr;
    destruct (String.eqb_spec typeof_window "object") as [Hw|Hw];
    cbn [andb negb set_agent prefixUrl asStream searchParams others];
    repeat (split; [done|]);
    first [ solve [ split;
                    [ intros H; by right
                    | intros [(H1 & H2 & H3)|H]; [congruence | done] ] ]
          | idtac ].
  split; [intros key Hkey; by rewrite lookup_insert_ne|].
  rewrite lookup_insert_eq. split; [|done]. intros _. by left.
Qed.

End OptionsFurther.

(** ** The two handlers together *)

(** X23. When the options handler has attached the agent that skips
    verification, every request that the request handler makes with the
    resolved options carries that agent. *)
Theorem bypass_agent_reaches_fetch
    JSON_parse JSON_stringify URL_new network
    typeof_window import_https (DefaultRequestOptions : Type)
    (empty_request_options : DefaultRequestOptions) baseOptionsHandler
    resourceOptions requestOptions options endpoint target init :
  defaultOptionsHandler typeof_window import_https DefaultRequestOptions
    empty_request_options baseOptionsHandler resourceOptions requestOptions
    = Normal options ->
  JSString.includes (url resourceOptions) "https" = true ->
  rejectUnauthorized resourceOptions = Some false ->
  typeof_window <> "object"%string ->
  In (Fetched target init)
    (defaultRequestHandler JSON_parse JSON_stringify URL_new network
       endpoint (Some options) []).2 ->
  init !! "agent" = Some bypass.
Proof.
  intros Hresolved Hurl Hr Hwindow Hin.
  assert (Hagent : others options !! "agent" = Some bypass).
  { unfold defaultOptionsHandler in Hresolved.
    destruct (baseOptionsHandler resourceOptions
                (default empty_request_options requestOptions)) as [o|e];
      [|discriminate].
    cbn in Hresolved. rewrite Hurl, Hr in Hresolved.
    apply String.eqb_neq in Hwindow. rewrite Hwindow in Hresolved.
    cbn in Hresolved. destruct import_https as [[]|e]; [|discriminate].
    cbn in Hresolved. injection Hresolved as <-. apply lookup_insert_eq. }
  destruct (URL_new endpoint (baseUrl (prefixUrl options))) as [u|e] eqn:Hnew.
  - destruct (handler_trace JSON_parse JSON_stringify URL_new network endpoint
                (Some options) u Hnew) as [Honly _].
    destruct (Honly _ _ Hin) as [_ ->]. by rewrite lookup_insert_ne.
  - rewrite (handler_trace_no_url JSON_parse JSON_stringify URL_new network endpoint
               (Some options) e Hnew) in Hin.
    destruct Hin.
Qed.

(** ** The further properties on the example host *)

Lemma three_retried j : (j < 3)%nat -> retries (Fixture.after_three Mock.success j) = true.
Proof. intros Hj. destruct j as [|[|[|j]]]; [reflexivity..|lia]. Defined.

Lemma overloaded_retried j : retries (Fixture.overloaded j) = true.
Proof. unfold Fixture.overloaded. destruct (Nat.even j); reflexivity. Defined.

Lemma call_stops_at_first_final_outcome_witness :
  exists k,
    (forall j, (j < k)%nat -> retries (Fixture.after_three Mock.success j) = true)
    /\ timers (defaultRequestHandler Mock.JSON_parse Mock.JSON_stringify URL.parse
                 (Fixture.after_three Mock.success) "testurl/123"
                 (Some Mock.options) []).2 = map backoff (seq 0 k)
    /\ (((k < maxRetries)%nat
         /\ retries (Fixture.after_three Mock.success k) = false
         /\ fetch_count (defaultRequestHandler Mock.JSON_parse Mock.JSON_stringify
                           URL.parse (Fixture.after_three Mock.success) "testurl/123"
                           (Some Mock.options) []).2 = S k)
        \/ (k = maxRetries
            /\ fetch_count (defaultRequestHandler Mock.JSON_parse Mock.JSON_stringify
                              URL.parse (Fixture.after_three Mock.success) "testurl/123"
                              (Some Mock.options) []).2 = maxRetries
            /\ (defaultRequestHandler Mock.JSON_parse Mock.JSON_stringify URL.parse
                  (Fixture.after_three Mock.success) "testurl/123"
                  (Some Mock.options) []).1 = Throw exhausted)).
Proof.
  exact (call_stops_at_first_final_outcome Mock.JSON_parse Mock.JSON_stringify URL.parse
           (Fixture.after_three Mock.success) "testurl/123" (Some Mock.options)
           Fixture.projects_url eq_refl).
Defined.

Lemma success_after_retries_witness :
  exists t,
    defaultRequestHandler Mock.JSON_parse Mock.JSON_stringify URL.parse
      (Fixture.after_three Mock.success) "testurl/123" (Some Mock.options) [] =
      (Normal {| body := JObject [];
                 headers := {["content-type"%string := "application/json"%string]};
                 status := 200 |}, t)
    /\ fetch_count t = 4%nat
    /\ timers t = map backoff (seq 0 3).
Proof.
  exact (success_after_retries Mock.JSON_parse Mock.JSON_stringify URL.parse
           (Fixture.after_three Mock.success) "testurl/123" (Some Mock.options)
           Fixture.projects_url 3 Mock.success eq_refl ltac:(unfold maxRetries; lia)
           three_retried eq_refl eq_refl).
Defined.

Lemma failure_is_never_retried_witness :
  exists e t,
    defaultRequestHandler Mock.JSON_parse Mock.JSON_stringify URL.parse
      (Fixture.after_three Fixture.notFound) "testurl/123" (Some Mock.options) [] =
      (Throw e, t)
    /\ throwFailedRequestError Mock.JSON_parse Mock.JSON_stringify Fixture.notFound
       = Throw e
    /\ fetch_count t = 4%nat
    /\ timers t = map backoff (seq 0 3).
Proof.
  apply (failure_is_never_retried Mock.JSON_parse Mock.JSON_stringify URL.parse
           (Fixture.after_three Fixture.notFound) "testurl/123" (Some Mock.options)
           Fixture.projects_url 3 Fixture.notFound eq_refl).
  - unfold maxRetries. lia.
  - intros j Hj. destruct j as [|[|[|j]]]; [reflexivity..|lia].
  - reflexivity.
  - reflexivity.
  - cbn. intros [H|[H|[]]]; discriminate.
Defined.

Lemma exhaustion_waits_after_last_attempt_witness :
  exists t,
    defaultRequestHandler Mock.JSON_parse Mock.JSON_stringify URL.parse
      Fixture.overloaded "testurl/123" (Some Mock.options) [] = (Throw exhausted, t)
    /\ fetch_count t = 10%nat
    /\ timers t = map backoff (seq 0 10)
    /\ last t = Some (TimerSet (backoff 9))
    /\ (total (timers t) == 102.3)%Q.
Proof.
  exact (exhaustion_waits_after_last_attempt Mock.JSON_parse Mock.JSON_stringify
           URL.parse Fixture.overloaded "testurl/123" (Some Mock.options)
           Fixture.projects_url eq_refl (fun j _ => overloaded_retried j)).
Defined.

Lemma not_a_retry_code (s : Z) : s <> 429 -> s <> 502 -> ~ In s retryCodes.
Proof. intros H1 H2 [H|[H|[]]]; congruence. Defined.

Lemma error_description_is_raw_text_witness :
  exists t,
    defaultRequestHandler Mock.JSON_parse Mock.JSON_stringify URL.parse
      (Mock.always Fixture.notFound) "http://test.com" None [] =
      (Throw (NewError "Not Found"
                (Some {| description := Some "no such project"%string;
                         response := Fixture.notFound |})), t)
    /\ fetch_count t = 1%nat.
Proof.
  eexists. split.
  - apply (error_description_is_raw_text Mock.JSON_parse Mock.JSON_stringify URL.parse
             (Mock.always Fixture.notFound) "http://test.com" None Fixture.root_url
             Fixture.notFound "no such project" eq_refl eq_refl eq_refl).
    + apply not_a_retry_code; discriminate.
    + reflexivity.
    + intros ct [= <-]. reflexivity.
  - reflexivity.
Defined.

Lemma malformed_error_body_propagates_witness :
  (exists t,
      defaultRequestHandler Fixture.JSON_parse Mock.JSON_stringify URL.parse
        (Mock.always Fixture.brokenJson) "http://test.com" None [] =
        (Throw (Native Mock.SyntaxError), t)
      /\ fetch_count t = 1%nat /\ timers t = [])
  /\ (exists e t,
      defaultRequestHandler Fixture.JSON_parse Mock.JSON_stringify URL.parse
        (Mock.always Fixture.nullJson) "http://test.com" None [] =
        (Throw (Native e), t)
      /\ name e = "TypeError"%string
      /\ fetch_count t = 1%nat /\ timers t = []).
Proof.
  split.
  - apply (proj1 (malformed_error_body_propagates Fixture.JSON_parse Mock.JSON_stringify
                    URL.parse (Mock.always Fixture.brokenJson) "http://test.com" None
                    Fixture.root_url Fixture.brokenJson "<html>" "application/json"
                    eq_refl eq_refl eq_refl
                    (not_a_retry_code 500 ltac:(discriminate) ltac:(discriminate))
                    eq_refl eq_refl eq_refl)).
    reflexivity.
  - apply (proj2 (malformed_error_body_propagates Fixture.JSON_parse Mock.JSON_stringify
                    URL.parse (Mock.always Fixture.nullJson) "http://test.com" None
                    Fixture.root_url Fixture.nullJson "null" "application/json"
                    eq_refl eq_refl eq_refl
                    (not_a_retry_code 500 ltac:(discriminate) ltac:(discriminate))
                    eq_refl eq_refl eq_refl)).
    reflexivity.
Defined.

Lemma falsy_error_falls_back_to_message_witness :
  exists t,
    defaultRequestHandler Fixture.JSON_parse Mock.JSON_stringify URL.parse
      (Mock.always Fixture.emptyError) "http://test.com" None [] =
      (Throw (NewError "Bad Request"
                (Some {| description := Mock.JSON_stringify (JString "msg") 2;
                         response := Fixture.emptyError |})), t)
    /\ fetch_count t = 1%nat.
Proof.
  exact (falsy_error_falls_back_to_message Fixture.JSON_parse Mock.JSON_stringify
           URL.parse (Mock.always Fixture.emptyError) "http://test.com" None Fixture.root_url
           Fixture.emptyError Fixture.empty_error_text "application/json"
           [("error"%string, JString EmptyString); ("message"%string, JString "msg")]
           (JString EmptyString)
           eq_refl eq_refl eq_refl
           (not_a_retry_code 400 ltac:(discriminate) ltac:(discriminate))
           eq_refl eq_refl eq_refl eq_refl eq_refl eq_refl).
Defined.

Lemma invalid_url_makes_no_request_witness :
  URL.parse "testurl" None = Throw URL.invalid
  /\ defaultRequestHandler Mock.JSON_parse Mock.JSON_stringify URL.parse
       (Mock.always Mock.success) "testurl" None [] = (Throw (Native URL.invalid), []).
Proof.
  split; [reflexivity|].
  exact (proj1 (invalid_url_makes_no_request Mock.JSON_parse Mock.JSON_stringify
                  URL.parse (Mock.always Mock.success) "testurl")
           None URL.invalid eq_refl).
Defined.

Lemma trailing_slash_of_prefix_is_immaterial_witness :
  baseUrl (Some "http://test.com/api/v4"%string) = Some "http://test.com/api/v4/"%string
  /\ defaultRequestHandler Mock.JSON_parse Mock.JSON_stringify URL.parse
       (Mock.always Mock.success) "projects"
       (Some (with_prefixUrl Fixture.options (Some "http://test.com/api/v4"%string))) []
     = defaultRequestHandler Mock.JSON_parse Mock.JSON_stringify URL.parse
         (Mock.always Mock.success) "projects"
         (Some (with_prefixUrl Fixture.options (Some "http://test.com/api/v4/"%string))) [].
Proof.
  exact (trailing_slash_of_prefix_is_immaterial Mock.JSON_parse Mock.JSON_stringify
           URL.parse (Mock.always Mock.success) "projects" Fixture.options
           "http://test.com/api/v4" [] eq_refl eq_refl).
Defined.

Lemma base_url_ends_with_slash_witness :
  JSString.endsWith "http://test.com/api/v4/" "/" = true
  /\ baseUrl (Some "http://test.com/api/v4/"%string) = Some "http://test.com/api/v4/"%string.
Proof.
  exact (base_url_ends_with_slash (Some "http://test.com/api/v4"%string)
           "http://test.com/api/v4/" eq_refl).
Defined.

Lemma options_pass_through_witness :
  exists target init rest,
    (defaultRequestHandler Mock.JSON_parse Mock.JSON_stringify URL.parse
       (Mock.always Mock.success) "projects" (Some Fixture.options) []).2
    = Fetched target init :: rest
    /\ init !! "method" = Some (JString "GET").
Proof.
  eexists _, _, _. split; [reflexivity|].
  eapply (options_pass_through Mock.JSON_parse Mock.JSON_stringify URL.parse
            (Mock.always Mock.success) "projects" (Some Fixture.options)
            _ _ "method"); [left; reflexivity | discriminate].
Defined.

Lemma search_params_replace_query_witness :
  exists target init rest,
    (defaultRequestHandler Mock.JSON_parse Mock.JSON_stringify URL.parse
       (Mock.always Mock.success) "projects?page=1"
       (Some (with_searchParams Fixture.options (Some "page=2"%string))) []).2
    = Fetched target init :: rest
    /\ URL.query target = Some "page=2"%string
    /\ URL.href target = "http://test.com/api/v4/projects?page=2"%string.
Proof.
  eexists _, _, _. split; [reflexivity|].
  split; [|reflexivity].
  eapply (proj1 (search_params_replace_query Mock.JSON_parse Mock.JSON_stringify
                   URL.parse (Mock.always Mock.success) "projects?page=1"
                   Fixture.options
                   {| URL.protocol := "http:"; URL.authority := Some "test.com"%string;
                      URL.pathname := "/api/v4/projects";
                      URL.query := Some "page=1"%string; URL.fragment := None |}
                   "p" "age=2" eq_refl ltac:(discriminate))).
  left. reflexivity.
Defined.

Lemma json_with_parameters_is_json_witness :
  processBody Fixture.spacedJson = Normal (JObject [("message"%string, JString "msg")]).
Proof.
  apply (json_with_parameters_is_json Fixture.spacedJson " " " " "; charset=utf-8"
           (JObject [("message"%string, JString "msg")]) eq_refl eq_refl).
  - right. eexists. reflexivity.
  - reflexivity.
  - reflexivity.
Defined.

Lemma text_body_is_returned_verbatim_witness :
  processBody Fixture.plainText = Normal (JString "hello")
  /\ processBody Fixture.emptyText = Normal (JString EmptyString).
Proof.
  split.
  - exact (text_body_is_returned_verbatim Fixture.plainText "text/plain; charset=utf-8"
             eq_refl eq_refl).
  - exact (text_body_is_returned_verbatim Fixture.emptyText "text/plain; charset=utf-8"
             eq_refl eq_refl).
Defined.

Lemma missing_content_type_gives_blob_witness :
  processBody Fixture.binary
  = Normal (JBlob {| blob_bytes := "PK"; blob_type := EmptyString |}).
Proof.
  exact (missing_content_type_gives_blob Fixture.binary (or_introl eq_refl)).
Defined.

Lemma null_body_only_for_no_content_witness :
  (JNull = JNull <-> Response.status Mock.noContent = 204)
  /\ (JObject [] = JNull <-> Response.status Mock.success = 204).
Proof.
  split.
  - exact (proj1 (null_body_only_for_no_content Mock.noContent
                    {| body := JNull;
                       headers := {["content-type"%string := "application/json"%string]};
                       status := 204 |} eq_refl)).
  - exact (proj1 (null_body_only_for_no_content Mock.success
                    {| body := JObject [];
                       headers := {["content-type"%string := "application/json"%string]};
                       status := 200 |} eq_refl)).
Defined.

Lemma parsed_headers_keep_last_entry_witness :
  exists result,
    parseResponse Fixture.paged false = Normal result
    /\ headers result !! "x-page" = Some "2"%string
    /\ headers result !! "etag" = None.
Proof.
  eexists. split; [reflexivity|].
  match goal with
  | |- headers ?res !! _ = _ /\ _ =>
      destruct (parsed_headers_keep_last_entry Fixture.paged false res eq_refl)
        as [Habsent Hlast]
  end.
  split.
  - apply (Hlast [("x-page", "1"); ("content-type", "application/json")]%string
             "x-page"%string "2"%string []); [reflexivity | intros []].
  - apply Habsent. cbn. intros [H|[H|[H|[]]]]; discriminate.
Defined.

Lemma options_unchanged_without_bypass_witness :
  defaultOptionsHandler "object" (Throw Fixture.no_https) RequestOptions no_options
    Fixture.base Fixture.insecure (Some Fixture.options) = Normal Fixture.options.
Proof.
  exact (options_unchanged_without_bypass "object" (Throw Fixture.no_https)
           RequestOptions no_options Fixture.base Fixture.insecure
           (Some Fixture.options) Fixture.options eq_refl (or_introl eq_refl)).
Defined.

Lemma import_failure_is_not_ignored_witness :
  defaultOptionsHandler "undefined" (Throw Fixture.no_https) RequestOptions no_options
    Fixture.base Fixture.insecure (Some Fixture.options)
  = Throw (Native Fixture.no_https).
Proof.
  exact (import_failure_is_not_ignored "undefined" (Throw Fixture.no_https)
           RequestOptions no_options Fixture.base Fixture.insecure
           (Some Fixture.options) Fixture.options Fixture.no_https
           eq_refl eq_refl eq_refl ltac:(discriminate) eq_refl).
Defined.

Lemma agent_is_the_only_change_witness :
  exists result,
    defaultOptionsHandler "undefined" (Normal tt) RequestOptions no_options
      Fixture.base Fixture.insecure (Some Fixture.options) = Normal result
    /\ prefixUrl result = Some "http://test.com/api/v4"%string
    /\ others result !! "method" = Some (JString "GET")
    /\ others result !! "agent" = Some bypass.
Proof.
  destruct (agent_is_the_only_change "undefined" (Normal tt) RequestOptions no_options
              Fixture.base Fixture.insecure (Some Fixture.options) Fixture.options
              eq_refl eq_refl)
    as (result & Hresult & Hprefix & _ & _ & Hkeys & Hagent).
  exists result. split; [exact Hresult|]. split; [by rewrite Hprefix|]. split.
  - rewrite Hkeys by discriminate. reflexivity.
  - apply Hagent. left. repeat split. discriminate.
Defined.

Lemma bypass_agent_reaches_fetch_witness :
  exists target init rest,
    (defaultRequestHandler Mock.JSON_parse Mock.JSON_stringify URL.parse
       (Mock.always Mock.success) "projects"
       (Some (set_agent Fixture.options bypass)) []).2
    = Fetched target init :: rest
    /\ init !! "agent" = Some bypass.
Proof.
  eexists _, _, _. split; [reflexivity|].
  eapply (bypass_agent_reaches_fetch Mock.JSON_parse Mock.JSON_stringify URL.parse
            (Mock.always Mock.success) "undefined" (Normal tt) RequestOptions no_options
            Fixture.base Fixture.insecure (Some Fixture.options)
            (set_agent Fixture.options bypass) "projects" _ _
            eq_refl eq_refl eq_refl ltac:(discriminate)).
  left. reflexivity.
Defined.
